(** * The submit/poll/aggregate engine of the AIDGE API service

    A shallow embedding of [demotest.py] (the asynchronous API client:
    [invoke_api], [submit_task], [poll_task_status],
    [process_single_request]) and of [api_server.py] (the batch endpoints:
    [process_batch], [get_batch_result], [process_batch_and_save]).

    - Python values coming out of [json.loads] are the inductive [pyval].
    - A [str] that is a JSON text is kept together with what [json.loads]
      makes of it: the serializer and the parser are library code.
    - The HTTP transport is an oracle: the n-th call made through a client
      coroutine gets the n-th [outcome] (a body, or an exception).
    - Coroutines are state-passing functions over a [world] that logs the
      requests sent and the back-off sleeps.
    - The semaphore of [AsyncApiClient] is a labelled transition system on
      the phases of the [invoke_api] calls. *)

From Stdlib Require Import ZArith QArith Qminmax Qpower Lqa String Ascii List.
From Stdlib Require Import Floats.SpecFloat Floats.PrimFloat Floats.FloatOps.
From stdpp Require Import gmap strings list fin_maps relations pretty sorting.

Open Scope string_scope.
Set Warnings "-register-all".

(** ** Python values *)

Inductive pyval : Type :=
  | PyNone
  | PyBool (b : bool)
  | PyNum (q : Q)                          (* int or float; exact *)
  | PyStr (s : string)
  | PyJson (v : pyval)                     (* the str json.dumps(v) *)
  | PyList (l : list pyval)
  | PyDict (kvs : list (string * pyval)).

(** [not v] is [negb (truthy v)]. [json.dumps] never returns the empty
    string. *)
Definition truthy (v : pyval) : bool :=
  match v with
  | PyNone => false
  | PyBool b => b
  | PyNum q => negb (Qeq_bool q 0)
  | PyStr s => negb (String.eqb s "")
  | PyJson _ => true
  | PyList l => match l with [] => false | _ => true end
  | PyDict kvs => match kvs with [] => false | _ => true end
  end.

Fixpoint assoc (key : string) (kvs : list (string * pyval)) : option pyval :=
  match kvs with
  | [] => None
  | (k, v) :: rest => if String.eqb k key then Some v else assoc key rest
  end.

(** [v.get(key, default)]: [None] stands for the AttributeError that
    Python raises when [v] is not a dict. *)
Definition get (key : string) (dflt : pyval) (v : pyval) : option pyval :=
  match v with
  | PyDict kvs => Some (default dflt (assoc key kvs))
  | _ => None
  end.

(** [v == s] for a string literal [s]. *)
Definition str_eq (v : pyval) (s : string) : bool :=
  match v with
  | PyStr t => String.eqb t s
  | _ => false
  end.

(** ** Strings *)

Definition startswith (s p : string) : bool := String.prefix p s.

(** [needle in s] *)
Fixpoint contains (needle s : string) : bool :=
  String.prefix needle s ||
  match s with
  | EmptyString => false
  | String _ rest => contains needle rest
  end.

Fixpoint endswith (s suffix : string) : bool :=
  String.eqb s suffix ||
  match s with
  | EmptyString => false
  | String _ rest => endswith rest suffix
  end.

(** ** JSON texts and the transport *)

(** A [str] holding a response: either a body received from the remote
    service, with the value [json.loads] gives for it ([None]: it raises),
    or the output of [json.dumps]. *)
Inductive text : Type :=
  | Body (raw : string) (parsed : option pyval)
  | Dumps (v : pyval).

Definition loads (t : text) : option pyval :=
  match t with
  | Body _ parsed => parsed
  | Dumps v => Some v
  end.

Definition val_of_text (t : text) : pyval :=
  match t with
  | Body raw _ => PyStr raw
  | Dumps v => PyJson v
  end.

(** What one HTTP round trip does: [response.text()], or an exception
    (with its [str(e)]). *)
Inductive outcome : Type :=
  | Responded (raw : string) (parsed : option pyval)
  | Raised (e : string).

Inductive http_method := GET | POST.

(** The [data] argument of [invoke_api]: a JSON text or a dict. *)
Inductive payload : Type :=
  | DataText (t : text)
  | DataDict (kvs : list (string * pyval)).

(** [session.get(url, params=data)] or [session.post(url, data=data)]; the
    URL is [/rest{api_name}] plus the signature parameters, which no
    property below reads. *)
Record request := {
  req_api_name : string;
  req_method : http_method;
  req_params : option payload;
  req_data : option payload
}.

Record world := {
  net : nat -> outcome;          (* outcome of the n-th round trip *)
  sent : list request;           (* requests issued so far *)
  slept : list Q                 (* asyncio.sleep arguments so far *)
}.

Definition new_world (n : nat -> outcome) : world :=
  {| net := n; sent := []; slept := [] |}.

Definition io (A : Type) : Type := world -> A * world.

#[global] Instance io_ret : MRet io := fun A x w => (x, w).
#[global] Instance io_bind : MBind io :=
  fun A B f m w => let (x, w') := m w in f x w'.

Definition sleep (delay : Q) : io unit :=
  fun w => (tt, {| net := net w; sent := sent w; slept := slept w ++ [delay] |}).

(** ** [AsyncApiClient.invoke_api] *)

Definition error_body (e : string) : pyval :=
  PyDict [("code", PyNum (-1)); ("message", PyStr ("API调用异常: " ++ e))].

(** The string [invoke_api] returns for a transport outcome. *)
Definition response_of (o : outcome) : text :=
  match o with
  | Responded raw parsed => Body raw parsed
  | Raised e => Dumps (error_body e)
  end.

Definition make_request (api_name : string) (data : payload) (is_get : bool) : request :=
  if is_get
  then {| req_api_name := api_name; req_method := GET;
          req_params := Some data; req_data := None |}
  else {| req_api_name := api_name; req_method := POST;
          req_params := None; req_data := Some data |}.

Definition invoke_api (api_name : string) (data : payload) (is_get : bool) : io text :=
  fun w =>
    (response_of (net w (length (sent w))),
     {| net := net w;
        sent := sent w ++ [make_request api_name data is_get];
        slept := slept w |}).

(** ** [AsyncApiClient.submit_task] *)

Definition submit_request (api_name : string) (request_params : pyval) : pyval :=
  if startswith api_name "/ai/image/translation"
  then PyDict [("paramJson", PyJson request_params)]
  else PyDict [("requestParams", PyJson request_params)].

(** The body of the [try] block; [None] when it raises. *)
Definition extract_task_id (submit_result : text) : option pyval :=
  submit_result_json ← loads submit_result;
  data ← get "data" (PyDict []) submit_result_json;
  result ← get "result" (PyDict []) data;
  task_id ← get "taskId" PyNone result;
  if truthy task_id then Some task_id
  else data' ← get "data" (PyDict []) submit_result_json;
       get "taskId" PyNone data'.

Definition submit_task (api_name : string) (request_params : pyval) : io pyval :=
  submit_result ←
    invoke_api api_name (DataText (Dumps (submit_request api_name request_params))) false;
  mret (default PyNone (extract_task_id submit_result)).

(** ** [AsyncApiClient.poll_task_status] *)

Definition timeout_result : text :=
  Dumps (PyDict [("code", PyNum (-1)); ("message", PyStr "任务轮询超时")]).

Definition query_request (query_api_name : string) (task_id : pyval) : payload :=
  if contains "/ai/virtual/" query_api_name
  then DataText (Dumps (PyDict [("task_id", task_id)]))
  else DataDict [("taskId", task_id)].

(** [task_status] as the [try] block computes it; [None] when [json.loads]
    or one of the [get]s raises. *)
Definition task_status (query_result : text) : option pyval :=
  query_result_json ← loads query_result;
  data ← get "data" (PyDict []) query_result_json;
  get "taskStatus" PyNone data.

Definition is_terminal (st : pyval) : bool :=
  str_eq st "finished" || str_eq st "failed".

(** The value of [delay] after an iteration that did not return. *)
Definition next_delay (query_result : text) (delay max_delay : Q) : Q :=
  match task_status query_result with
  | Some _ => Qmin (delay * (3 # 2)) max_delay
  | None => Qmin (delay * 2) max_delay
  end.

(** [for _ in range(max_retries)], by recursion on the iterations left. *)
Fixpoint poll_loop (retries : nat) (query_api_name : string) (query : payload)
    (delay max_delay : Q) : io text :=
  match retries with
  | O => mret timeout_result
  | S retries' =>
      query_result ←
        invoke_api query_api_name query (contains "/results" query_api_name);
      match task_status query_result with
      | Some st =>
          if is_terminal st then mret query_result
          else
            _ ← sleep delay;
            poll_loop retries' query_api_name query
              (Qmin (delay * (3 # 2)) max_delay) max_delay
      | None =>
          _ ← sleep delay;
          poll_loop retries' query_api_name query
            (Qmin (delay * 2) max_delay) max_delay
      end
  end.

Definition poll_task_status (query_api_name : string) (task_id : pyval)
    (max_retries : nat) (initial_delay max_delay : Q) : io text :=
  poll_loop max_retries query_api_name (query_request query_api_name task_id)
    initial_delay max_delay.

Definition default_max_retries : nat := 60.
Definition default_initial_delay : Q := 1.
Definition default_max_delay : Q := 10.

(** ** [process_single_request] *)

Definition submission_failed : pyval :=
  PyDict [("status", PyStr "failed"); ("message", PyStr "提交任务失败")].

Definition process_single_request (api_name : string) (params : pyval)
    (query_api : string) : io pyval :=
  task_id ← submit_task api_name params;
  if negb (truthy task_id) then mret submission_failed
  else
    result ←
      poll_task_status query_api task_id
        default_max_retries default_initial_delay default_max_delay;
    mret (PyDict [("status", PyStr "success"); ("task_id", task_id);
                  ("result", val_of_text result)]).

(** ** The batch endpoints of [api_server.py] *)

Record api_request := {
  api_name : string;
  params : pyval;
  query_api : string
}.

(** [{"index": i, "result": result}] or [{"index": i, "error": str(e)}] *)
Inductive batch_item : Type :=
  | ItemResult (index : nat) (result : pyval)
  | ItemError (index : nat) (error : string).

Definition item_index (it : batch_item) : nat :=
  match it with
  | ItemResult i _ => i
  | ItemError i _ => i
  end.

Inductive batch_status := Processing | Completed.   (* "processing", "completed" *)

Record batch_record := {
  status : batch_status;
  results : list batch_item
}.

(** What [await task] gives once the task is done. *)
Inductive task_outcome : Type :=
  | Returned (v : pyval)
  | Failed (e : string).

(** The event loop, as far as a batch sees it: the responses the remote
    service gives to the calls of task [i], and the order in which the
    tasks that finish do so. *)
Record event_loop := {
  nets : nat -> nat -> outcome;
  completion : list nat
}.

(** [asyncio.create_task(process_single_request(client, ...))], run to its
    end. *)
Definition run_task (n : nat -> outcome) (req : api_request) : task_outcome :=
  Returned (fst (process_single_request (api_name req) (params req) (query_api req)
                   (new_world n))).

(** The finished tasks with their outcomes. With a semaphore of value 0
    every [invoke_api] waits for ever, and no task finishes. *)
Definition finished_tasks (requests_data : list api_request) (max_concurrent : nat)
    (ev : event_loop) : gmap nat task_outcome :=
  if Nat.eqb max_concurrent 0 then ∅
  else
    foldl (fun done i =>
             match requests_data !! i with
             | Some req => <[i := run_task (nets ev i) req]> done
             | None => done
             end) ∅ (completion ev).

(** [for i, req in enumerate(requests_data)] *)
Definition enumerate {A : Type} (l : list A) : list (nat * A) :=
  imap (fun i x => (i, x)) l.

(** The loop over [tasks] that awaits each one and appends its item;
    [None] when some awaited task never finishes. *)
Fixpoint await_all (tasks : list (nat * api_request))
    (done : gmap nat task_outcome) : option (list batch_item) :=
  match tasks with
  | [] => Some []
  | (i, _) :: rest =>
      o ← done !! i;
      items ← await_all rest done;
      Some (match o with
            | Returned result => ItemResult i result
            | Failed e => ItemError i e
            end :: items)
  end.

(** [process_batch_and_save]: the store after the coroutine has run as far
    as it gets. *)
Definition process_batch_and_save (batch_id : string)
    (requests_data : list api_request) (max_concurrent : nat) (ev : event_loop)
    (task_results : gmap string batch_record) : gmap string batch_record :=
  let task_results :=
    <[batch_id := {| status := Processing; results := [] |}]> task_results in
  match await_all (enumerate requests_data)
          (finished_tasks requests_data max_concurrent ev) with
  | Some items => <[batch_id := {| status := Completed; results := items |}]> task_results
  | None => task_results
  end.

(** The server: the global [task_results] and the background tasks that
    were added and have not started yet. *)
Record server := {
  task_results : gmap string batch_record;
  background : list (string * list api_request * nat)
}.

Definition new_server : server := {| task_results := ∅; background := [] |}.

(** [POST /api/batch] *)
Definition process_batch (requests : list api_request) (max_concurrent : nat)
    (s : server) : string * server :=
  let batch_id := "batch_" +:+ pretty (size (task_results s) + 1)%nat in
  (batch_id,
   {| task_results := task_results s;
      background := background s ++ [(batch_id, requests, max_concurrent)] |}).

(** [GET /api/batch/{batch_id}]; [None] is the 404 answer. *)
Definition get_batch_result (batch_id : string) (s : server) : option batch_record :=
  task_results s !! batch_id.

(** The first background task runs. *)
Definition run_background (ev : event_loop) (s : server) : server :=
  match background s with
  | [] => s
  | (batch_id, requests_data, max_concurrent) :: rest =>
      {| task_results :=
           process_batch_and_save batch_id requests_data max_concurrent ev
             (task_results s);
         background := rest |}
  end.

(** ** The semaphore of [AsyncApiClient] *)

(** Where a call of [invoke_api] is: at [async with self.semaphore],
    inside it with the HTTP request under way, or returned. *)
Inductive phase : Type :=
  | Waiting
  | InFlight
  | Done (r : text).

Record AsyncApiClient := {
  semaphore : nat;
  calls : list phase
}.

(** [AsyncApiClient(max_concurrent_requests)] *)
Definition new_client (max_concurrent_requests : nat) : AsyncApiClient :=
  {| semaphore := max_concurrent_requests; calls := [] |}.

Inductive client_step : AsyncApiClient -> AsyncApiClient -> Prop :=
  | step_invoke c :
      client_step c {| semaphore := semaphore c; calls := calls c ++ [Waiting] |}
  | step_acquire c i v :
      calls c !! i = Some Waiting ->
      semaphore c = S v ->
      client_step c {| semaphore := v; calls := <[i := InFlight]> (calls c) |}
  | step_release c i o :
      calls c !! i = Some InFlight ->
      client_step c {| semaphore := S (semaphore c);
                       calls := <[i := Done (response_of o)]> (calls c) |}.

Definition is_in_flight (p : phase) : bool :=
  match p with InFlight => true | _ => false end.

Fixpoint count_in_flight (l : list phase) : nat :=
  match l with
  | [] => 0
  | p :: rest => (if is_in_flight p then 1 else 0) + count_in_flight rest
  end.

Definition in_flight (c : AsyncApiClient) : nat := count_in_flight (calls c).

(** The batches being processed: each [process_batch_and_save] frame holds
    its [max_concurrent] and the client it made from it. *)
Record batch_run := {
  run_batch_id : string;
  run_max_concurrent : nat;
  run_client : AsyncApiClient
}.

(** [AsyncApiClient()], as [process_api] makes it. *)
Definition default_max_concurrent_requests : nat := 10.

(** The clients in use: one for every batch being processed, and one for
    every single request that [process_api] is serving. *)
Record service := {
  batches : list batch_run;
  singles : list AsyncApiClient
}.

Definition new_service : service := {| batches := []; singles := [] |}.

(** A batch or a single request enters its [async with AsyncApiClient(...)]
    block, a client in use makes a step, or a block is left (its work is
    done, or an exception ends it) and its client is no longer in use. *)
Inductive service_step : service -> service -> Prop :=
  | step_start s batch_id max_concurrent :
      service_step s
        {| batches := batches s ++
                      [{| run_batch_id := batch_id;
                          run_max_concurrent := max_concurrent;
                          run_client := new_client max_concurrent |}];
           singles := singles s |}
  | step_client s k b c' :
      batches s !! k = Some b ->
      client_step (run_client b) c' ->
      service_step s
        {| batches := <[k := {| run_batch_id := run_batch_id b;
                                run_max_concurrent := run_max_concurrent b;
                                run_client := c' |}]> (batches s);
           singles := singles s |}
  | step_finish s k :
      service_step s {| batches := delete k (batches s); singles := singles s |}
  | step_single_start s :
      service_step s
        {| batches := batches s;
           singles := singles s ++ [new_client default_max_concurrent_requests] |}
  | step_single_client s k c c' :
      singles s !! k = Some c ->
      client_step c c' ->
      service_step s {| batches := batches s; singles := <[k := c']> (singles s) |}
  | step_single_finish s k :
      service_step s {| batches := batches s; singles := delete k (singles s) |}.

Definition total_in_flight (s : service) : nat :=
  sum_list (map (fun b => in_flight (run_client b)) (batches s)) +
  sum_list (map in_flight (singles s)).

(** The sum of the limits of the clients in use. *)
Definition total_limit (s : service) : nat :=
  sum_list (map run_max_concurrent (batches s)) +
  default_max_concurrent_requests * length (singles s).

(** ** Auxiliary definitions for the properties *)

(** The response is one on which [poll_task_status] returns. *)
Definition terminal_response (t : text) : bool :=
  match task_status t with
  | Some st => is_terminal st
  | None => false
  end.

(** The world after an iteration of the loop that did not return. *)
Definition after_poll (api : string) (q : payload) (delay : Q) (w : world) : world :=
  {| net := net w;
     sent := sent w ++ [make_request api q (contains "/results" api)];
     slept := slept w ++ [delay] |}.

Definition current (w : world) : text := response_of (net w (length (sent w))).



(** Two batches submitted with [max_concurrent = 1], each with one call
    inside the semaphore of its own client. *)
Definition two_batches_in_flight : list batch_run :=
  [{| run_batch_id := "batch_1"; run_max_concurrent := 1;
      run_client := {| semaphore := 0; calls := [InFlight] |} |};
   {| run_batch_id := "batch_2"; run_max_concurrent := 1;
      run_client := {| semaphore := 0; calls := [InFlight] |} |}].

(** The units left in the semaphore of a batch and its calls in flight add
    up to its [max_concurrent]. *)
Definition run_conserves (b : batch_run) : Prop :=
  semaphore (run_client b) + in_flight (run_client b) = run_max_concurrent b.

(** ** Responses and worlds used in the examples

    The raw text of a body is a label here: the code only passes it
    through, and reads the parsed value. *)

Definition running_body : outcome :=
  Responded "running"
    (Some (PyDict [("data", PyDict [("taskStatus", PyStr "running")])])).

Definition finished_body : outcome :=
  Responded "finished"
    (Some (PyDict [("data", PyDict [("taskStatus", PyStr "finished");
                                    ("value", PyNum 42)])])).

(** [{"data": {"result": null, "taskId": "T1"}}] *)
Definition null_result_body : outcome :=
  Responded "null result"
    (Some (PyDict [("data", PyDict [("result", PyNone); ("taskId", PyStr "T1")])])).

(** Two polls find the task running, the third finds it finished. *)
Definition finishes_at_third (i : nat) : outcome :=
  match i with
  | 0 | 1 => running_body
  | _ => finished_body
  end.

Definition always_running (i : nat) : outcome := running_body.

Definition transport_down (i : nat) : outcome := Raised "timeout".

Definition example_request : api_request :=
  {| api_name := "/ai/image/translation_mllm/batch";
     params := PyList [];
     query_api := "/ai/image/translation_mllm/results" |}.

(** The second task finishes before the first. *)
Definition example_loop : event_loop :=
  {| nets := fun _ => transport_down; completion := [1; 0] |}.

(** ** [process_api], the single-request endpoint of [api_server.py] *)

(** The exceptions raised inside the [try] block of [process_api]. *)
Inductive exn : Type :=
  | HTTPException (status_code : nat) (detail : string)
  | JSONDecodeError.

(** What the endpoint answers: the returned dict (status 200), or the
    [HTTPException(status_code, detail = prefix + str(cause))] that the
    [except] clause raises. *)
Inductive http_answer : Type :=
  | Answer (body : pyval)
  | Fault (status_code : nat) (prefix : string) (cause : exn).

(** The [try] block: [inl e] when it raises [e]. The [HTTPException] with
    status 400 is raised inside it. *)
Definition process_api_try (request : api_request) : io (exn + pyval) :=
  task_id ← submit_task (api_name request) (params request);
  if negb (truthy task_id) then mret (inl (HTTPException 400 "提交任务失败"))
  else
    result ←
      poll_task_status (query_api request) task_id
        default_max_retries default_initial_delay default_max_delay;
    mret (match loads result with
          | Some result_json =>
              inr (PyDict [("task_id", task_id); ("result", result_json)])
          | None => inl JSONDecodeError
          end).

Definition process_api (request : api_request) : io http_answer :=
  r ← process_api_try request;
  mret (match r with
        | inr body => Answer body
        | inl e => Fault 500 "处理请求异常: " e
        end).

(** ** Batches submitted one at a time *)

(** [POST /api/batch], then the background task it added runs, before
    the next request is handled. *)
Definition submit_and_start (requests : list api_request) (max_concurrent : nat)
    (ev : event_loop) (s : server) : string * server :=
  let (batch_id, s') := process_batch requests max_concurrent s in
  (batch_id, run_background ev s').

Fixpoint serve (batches : list (list api_request * nat * event_loop)) (s : server)
    : list string * server :=
  match batches with
  | [] => ([], s)
  | (requests, max_concurrent, ev) :: rest =>
      let (batch_id, s') := submit_and_start requests max_concurrent ev s in
      let (ids, s'') := serve rest s' in
      (batch_id :: ids, s'')
  end.

(** The identifiers of the first [n] batches. *)
Definition batch_ids (n : nat) : list string :=
  (fun k => "batch_" +:+ pretty k) <$> seq 1 n.

(** No background task is waiting, and the store holds the records of
    [batch_1], ..., [batch_n] and no other. *)
Definition numbered (s : server) : Prop :=
  background s = [] /\
  dom (task_results s) = list_to_set (batch_ids (size (task_results s))).

(** ** Sums of delays *)

Definition total_sleep (delays : list Q) : Q := foldr Qplus 0%Q delays.

(** The item of request [i] of a batch, run against the responses that
    the event loop has for it. *)
Definition item_of (ev : event_loop) (i : nat) (req : api_request) : batch_item :=
  ItemResult i
    (process_single_request (api_name req) (params req) (query_api req)
       (new_world (nets ev i))).1.

(** ** Batches submitted in a burst *)

(** Several [POST /api/batch] requests handled before any background task
    starts. *)
Fixpoint submit_all (batches : list (list api_request * nat)) (s : server)
    : list string * server :=
  match batches with
  | [] => ([], s)
  | (requests, max_concurrent) :: rest =>
      let (batch_id, s') := process_batch requests max_concurrent s in
      let (ids, s'') := submit_all rest s' in
      (batch_id :: ids, s'')
  end.

(** ** What escapes [invoke_api] *)

(** What the HTTP request inside the [try] of [invoke_api] can raise: an
    instance of [Exception], or a [BaseException] that is none
    ([asyncio.CancelledError], [KeyboardInterrupt]). *)
Inductive raised : Type :=
  | Exc (e : string)
  | BaseExc (e : string).

Inductive transport : Type :=
  | Returns (raw : string) (parsed : option pyval)
  | Raises (r : raised).

(** The [try ... except Exception] of [invoke_api]: [inr] is the string
    returned, [inl] the exception that propagates to the caller. *)
Definition invoke_api_try (t : transport) : string + text :=
  match t with
  | Returns raw parsed => inr (Body raw parsed)
  | Raises (Exc e) => inr (Dumps (error_body e))
  | Raises (BaseExc e) => inl e
  end.

(** The outcomes of a [world] are those after which [invoke_api] returns. *)
Definition transport_of (o : outcome) : transport :=
  match o with
  | Responded raw parsed => Returns raw parsed
  | Raised e => Raises (Exc e)
  end.

(** ** The delay in floating point *)

(** [min(delay * factor, max_delay)] on Python floats (binary64). *)
Definition float_grow (factor max_delay delay : float) : float :=
  let grown := (delay * factor)%float in
  if (max_delay <? grown)%float then max_delay else grown.

(** The rational that a finite float stands for. *)
Definition float_to_Q (f : float) : option Q :=
  match Prim2SF f with
  | S754_zero _ => Some 0%Q
  | S754_finite sign m e =>
      Some ((if sign then -1 else 1) * inject_Z (Zpos m) * 2 ^ e)%Q
  | _ => None
  end.

(** ** [max_concurrent] as the request gives it *)

(** [process_batch_and_save] with the [max_concurrent] of a
    [BatchApiRequest], an [Optional[int]]: for [None] or a negative value
    [asyncio.Semaphore] raises in [AsyncApiClient.__init__], after the
    record has been set to "processing", and the coroutine ends there. *)
Definition process_batch_and_save_int (batch_id : string)
    (requests_data : list api_request) (max_concurrent : option Z) (ev : event_loop)
    (task_results : gmap string batch_record) : gmap string batch_record :=
  match max_concurrent with
  | Some value =>
      if (value <? 0)%Z
      then <[batch_id := {| status := Processing; results := [] |}]> task_results
      else process_batch_and_save batch_id requests_data (Z.to_nat value) ev task_results
  | None => <[batch_id := {| status := Processing; results := [] |}]> task_results
  end.

(** ** More responses for the examples *)

(** [{"data": {"result": {"taskId": "T1"}}}] *)
Definition accepted_body : outcome :=
  Responded "accepted"
    (Some (PyDict [("data", PyDict [("result", PyDict [("taskId", PyStr "T1")])])])).

Set Warnings "-clear-no-such-hyp".

(** ** Proof support *)

#[local] Instance Qmin_proper : Proper (Qeq ==> Qeq ==> Qeq) Qmin := Q.min_compat.

Ltac io_unfold := unfold mbind, io_bind, mret, io_ret, invoke_api, sleep in *.

(** * Properties *)

(** ** The poller *)

Lemma terminal_response_spec t :
  terminal_response t = true <->
  exists j d, loads t = Some j /\ get "data" (PyDict []) j = Some d /\
    (get "taskStatus" PyNone d = Some (PyStr "finished") \/
     get "taskStatus" PyNone d = Some (PyStr "failed")).
Proof.
  unfold terminal_response, task_status. split.
  - destruct (loads t) as [j|] eqn:Ej; [|discriminate].
    cbn [mbind option_bind].
    destruct (get "data" (PyDict []) j) as [d|] eqn:Ed; [|discriminate].
    cbn [mbind option_bind].
    destruct (get "taskStatus" PyNone d) as [st|] eqn:Es; [|discriminate].
    unfold is_terminal. intros H. exists j, d. split; [done|]. split; [done|].
    destruct st; simpl in H; try discriminate.
    apply orb_true_iff in H as [H|H]; apply String.eqb_eq in H; subst; auto.
  - intros (j & d & -> & Hd & Hs). cbn [mbind option_bind]. rewrite Hd.
    cbn [mbind option_bind]. destruct Hs as [-> | ->]; reflexivity.
Qed.

Lemma poll_loop_continue n api q d M w :
  terminal_response (current w) = false ->
  poll_loop (S n) api q d M w =
  poll_loop n api q (next_delay (current w) d M) M (after_poll api q d w).
Proof.
  unfold terminal_response, next_delay, current. intros H. simpl. io_unfold.
  destruct (task_status _) as [st|]; [|reflexivity].
  rewrite H. reflexivity.
Qed.

Lemma poll_loop_return n api q d M w :
  terminal_response (current w) = true ->
  poll_loop (S n) api q d M w =
  (current w,
   {| net := net w;
      sent := sent w ++ [make_request api q (contains "/results" api)];
      slept := slept w |}).
Proof.
  unfold terminal_response, current. intros H. simpl. io_unfold.
  destruct (task_status _) as [st|]; [|discriminate].
  rewrite H. reflexivity.
Qed.

Lemma poll_loop_exhausted n : forall api q d M w,
  (forall j, j < n ->
     terminal_response (response_of (net w (length (sent w) + j))) = false) ->
  let res := poll_loop n api q d M w in
  res.1 = timeout_result /\ length (sent res.2) = length (sent w) + n.
Proof.
  induction n as [|n IH]; intros api q d M w Hpend.
  - simpl. split; [reflexivity | lia].
  - assert (Hnow : terminal_response (current w) = false).
    { unfold current. specialize (Hpend 0 ltac:(lia)).
      by rewrite Nat.add_0_r in Hpend. }
    rewrite (poll_loop_continue _ _ _ _ _ _ Hnow).
    destruct (IH api q (next_delay (current w) d M) M (after_poll api q d w))
      as [Hres Hlen].
    { intros j Hj. simpl. rewrite length_app. simpl.
      replace (length (sent w) + 1 + j) with (length (sent w) + S j) by lia.
      apply Hpend. lia. }
    split; [exact Hres|].
    rewrite Hlen. simpl. rewrite length_app. simpl. lia.
Qed.

Lemma poll_loop_first_terminal i : forall n api q d M w,
  i < n ->
  terminal_response (response_of (net w (length (sent w) + i))) = true ->
  (forall j, j < i ->
     terminal_response (response_of (net w (length (sent w) + j))) = false) ->
  let res := poll_loop n api q d M w in
  res.1 = response_of (net w (length (sent w) + i)) /\
  length (sent res.2) = length (sent w) + i + 1 /\
  length (slept res.2) = length (slept w) + i.
Proof.
  induction i as [|i IH]; intros n api q d M w Hlt Hterm Hpend;
    destruct n as [|n]; try lia.
  - rewrite Nat.add_0_r in Hterm.
    rewrite (poll_loop_return _ _ _ _ _ _ Hterm). simpl.
    rewrite Nat.add_0_r, length_app. simpl. repeat split; lia.
  - assert (Hnow : terminal_response (current w) = false).
    { unfold current. specialize (Hpend 0 ltac:(lia)).
      by rewrite Nat.add_0_r in Hpend. }
    rewrite (poll_loop_continue _ _ _ _ _ _ Hnow).
    destruct (IH n api q (next_delay (current w) d M) M (after_poll api q d w))
      as (Hres & Hsent & Hslept).
    + lia.
    + simpl. rewrite length_app. simpl.
      replace (length (sent w) + 1 + i) with (length (sent w) + S i) by lia.
      exact Hterm.
    + intros j Hj. simpl. rewrite length_app. simpl.
      replace (length (sent w) + 1 + j) with (length (sent w) + S j) by lia.
      apply Hpend. lia.
    + simpl in Hres, Hsent, Hslept. rewrite !length_app in *. simpl in *.
      replace (length (sent w) + 1 + i) with (length (sent w) + S i) in Hres by lia.
      repeat split; [exact Hres | lia | lia].
Qed.

(** C2, with the message of the code: the poller returns the body of the
    first query response whose [data.taskStatus] is "finished" or "failed",
    at the iteration that receives it (responses before it, query errors
    included, only make it wait and query again); when none of the
    [max_retries] responses is terminal it returns, without raising,
    [json.dumps] of code -1 and message "任务轮询超时". *)
Theorem poll_task_status_result (query_api_name : string) (task_id : pyval)
    (max_retries : nat) (initial_delay max_delay : Q) (w : world) :
  let res := poll_task_status query_api_name task_id max_retries
               initial_delay max_delay w in
  (forall i, i < max_retries ->
     terminal_response (response_of (net w (length (sent w) + i))) = true ->
     (forall j, j < i ->
        terminal_response (response_of (net w (length (sent w) + j))) = false) ->
     res.1 = response_of (net w (length (sent w) + i)) /\
     length (sent res.2) = length (sent w) + i + 1 /\
     length (slept res.2) = length (slept w) + i) /\
  ((forall j, j < max_retries ->
      terminal_response (response_of (net w (length (sent w) + j))) = false) ->
   res.1 = Dumps (PyDict [("code", PyNum (-1)); ("message", PyStr "任务轮询超时")]) /\
   length (sent res.2) = length (sent w) + max_retries).
Proof.
  unfold poll_task_status. split.
  - intros i Hlt Hterm Hpend. by apply poll_loop_first_terminal.
  - intros Hpend. by apply poll_loop_exhausted.
Qed.

(** ** The back-off *)

Section Backoff.
Variables (m max_delay : Q).
Hypothesis Hm : (1 <= m)%Q.


End Backoff.







(** In floating point the delays of the defaults are exact: from 1 with
    the cap 10, [k] growths by 1.5, or by 2, give the float that stands for
    the closed form. *)
Lemma float_backoff_exact (k : nat) :
  (exists x, float_to_Q (Nat.iter k (float_grow 1.5 10) 1%float) = Some x /\
             (x == Qmin (1 * (3 # 2) ^ Z.of_nat k) 10)%Q) /\
  (exists x, float_to_Q (Nat.iter k (float_grow 2 10) 1%float) = Some x /\
             (x == Qmin (1 * 2 ^ Z.of_nat k) 10)%Q).
Proof.
  assert (Hcap : forall (f : Q) j, (1 <= f)%Q -> (10 <= f ^ Z.of_nat j)%Q ->
            forall i, (Qmin (1 * f ^ Z.of_nat (j + i)) 10 == 10)%Q).
  { intros f j Hf Hj i. apply Q.min_r. rewrite Qmult_1_l.
    eapply Qle_trans; [exact Hj|]. apply Qpower_le_compat_l; [lia | exact Hf]. }
  split.
  - destruct (Nat.lt_ge_cases k 6) as [Hlt | Hge].
    + do 6 (destruct k as [|k]; [eexists; split; vm_compute; reflexivity|]). lia.
    + replace k with (6 + (k - 6)) by lia. generalize (k - 6). intros i.
      assert (Hfix : Nat.iter (6 + i) (float_grow 1.5 10) 1%float = 10%float).
      { induction i as [|i IH]; [vm_compute; reflexivity|].
        rewrite Nat.add_succ_r, Nat.iter_succ, IH. vm_compute. reflexivity. }
      rewrite Hfix. eexists. split; [vm_compute; reflexivity|].
      transitivity 10%Q; [vm_compute; reflexivity|].
      symmetry. apply (Hcap (3 # 2)%Q 6); vm_compute; discriminate.
  - destruct (Nat.lt_ge_cases k 4) as [Hlt | Hge].
    + do 4 (destruct k as [|k]; [eexists; split; vm_compute; reflexivity|]). lia.
    + replace k with (4 + (k - 4)) by lia. generalize (k - 4). intros i.
      assert (Hfix : Nat.iter (4 + i) (float_grow 2 10) 1%float = 10%float).
      { induction i as [|i IH]; [vm_compute; reflexivity|].
        rewrite Nat.add_succ_r, Nat.iter_succ, IH. vm_compute. reflexivity. }
      rewrite Hfix. eexists. split; [vm_compute; reflexivity|].
      transitivity 10%Q; [vm_compute; reflexivity|].
      symmetry. apply (Hcap 2%Q 4); vm_compute; discriminate.
Qed.


(** ** [invoke_api] and the transport *)

(** C10, as the code has it: when the request returns a body, or raises
    an instance of [Exception], [invoke_api] returns a string: the body,
    or [json.dumps] of code -1 and a message; that string parses, has no
    [data.taskStatus], and the poller takes it for a response that is not
    terminal. What it raises that is no [Exception] (a cancellation) is
    not caught: then no string is returned and it reaches the caller. *)
Theorem invoke_api_total (api : string) (data : payload) (is_get : bool) (w : world) :
  (invoke_api api data is_get w).1 =
    match net w (length (sent w)) with
    | Responded raw parsed => Body raw parsed
    | Raised e =>
        Dumps (PyDict [("code", PyNum (-1)); ("message", PyStr ("API调用异常: " ++ e))])
    end /\
  invoke_api_try (transport_of (net w (length (sent w)))) =
    inr (invoke_api api data is_get w).1 /\
  length (sent (invoke_api api data is_get w).2) = length (sent w) + 1 /\
  (forall t, (exists s, invoke_api_try t = inr s) <->
             (forall e, t <> Raises (BaseExc e))) /\
  (forall e,
     invoke_api_try (Raises (Exc e)) =
       inr (Dumps (PyDict [("code", PyNum (-1));
                           ("message", PyStr ("API调用异常: " ++ e))])) /\
     invoke_api_try (Raises (BaseExc e)) = inl e) /\
  forall e,
    loads (response_of (Raised e)) = Some (error_body e) /\
    get "data" (PyDict []) (error_body e) = Some (PyDict []) /\
    task_status (response_of (Raised e)) = Some PyNone /\
    terminal_response (response_of (Raised e)) = false.
Proof.
  split; [|split; [|split; [|split; [|split]]]].
  - unfold invoke_api. simpl. by destruct (net w (length (sent w))).
  - unfold invoke_api. simpl. by destruct (net w (length (sent w))).
  - unfold invoke_api. simpl. rewrite length_app. simpl. lia.
  - intros t. split.
    + intros [s Hs] e ->. discriminate.
    + intros Hne. destruct t as [raw parsed | [e | e]]; simpl.
      * by eexists.
      * by eexists.
      * by destruct (Hne e).
  - intros e. split; reflexivity.
  - intros e. repeat split.
Qed.

(** ** [submit_task] *)

Lemma get_is_dict key dflt v r :
  get key dflt v = Some r -> exists kvs, v = PyDict kvs.
Proof. destruct v; simpl; try discriminate. eauto. Qed.

Lemma extract_task_id_truthy t r :
  default PyNone (extract_task_id t) = r ->
  truthy r = true ->
  exists j d res t1 t2,
    loads t = Some j /\
    get "data" (PyDict []) j = Some d /\
    get "result" (PyDict []) d = Some res /\
    get "taskId" PyNone res = Some t1 /\
    get "taskId" PyNone d = Some t2 /\
    r = (if truthy t1 then t1 else t2).
Proof.
  unfold extract_task_id. intros Hr Ht.
  destruct (loads t) as [j|] eqn:Ej; cbn [mbind option_bind] in Hr;
    [|subst; discriminate].
  destruct (get "data" (PyDict []) j) as [d|] eqn:Ed; cbn [mbind option_bind] in Hr;
    [|subst; discriminate].
  destruct (get "result" (PyDict []) d) as [res|] eqn:Eres;
    cbn [mbind option_bind] in Hr; [|subst; discriminate].
  destruct (get "taskId" PyNone res) as [t1|] eqn:E1; cbn [mbind option_bind] in Hr;
    [|subst; discriminate].
  destruct (get_is_dict _ _ _ _ Eres) as [kvs Hkvs].
  exists j, d, res, t1, (default PyNone (assoc "taskId" kvs)).
  repeat (split; [done|]).
  split; [by rewrite Hkvs|].
  destruct (truthy t1); [by simpl in Hr|].
  cbn [mbind option_bind] in Hr. rewrite Hkvs in Hr. by simpl in Hr.
Qed.

(** C4, as the code has it: the body posted is [json.dumps] of a dict with
    the JSON-encoded parameters under "paramJson" when the endpoint name
    starts with "/ai/image/translation" and under "requestParams"
    otherwise. When the response parses and its top level, [data] and
    [data.result] (an empty dict for an absent one) are dicts, the call
    returns [data.result.taskId] if that is truthy and [data.taskId]
    ([None] for an absent one) otherwise; when the response is not of that
    shape it returns [None]. So it returns a task id (a truthy value)
    exactly when the response is of that shape and one of the two is
    truthy; it returns [None] when the body is not JSON and when the
    transport raises. *)
Theorem submit_task_result (api : string) (request_params : pyval) (w : world) :
  let res := submit_task api request_params w in
  let t := response_of (net w (length (sent w))) in
  sent res.2 = (sent w ++
    [{| req_api_name := api; req_method := POST; req_params := None;
        req_data := Some (DataText (Dumps (PyDict
          [(if startswith api "/ai/image/translation"
            then "paramJson" else "requestParams", PyJson request_params)]))) |}])%list /\
  (forall j d r t1 t2,
     loads t = Some j ->
     get "data" (PyDict []) j = Some d ->
     get "result" (PyDict []) d = Some r ->
     get "taskId" PyNone r = Some t1 ->
     get "taskId" PyNone d = Some t2 ->
     res.1 = (if truthy t1 then t1 else t2)) /\
  ((forall j d r t1,
      ~ (loads t = Some j /\
         get "data" (PyDict []) j = Some d /\
         get "result" (PyDict []) d = Some r /\
         get "taskId" PyNone r = Some t1)) ->
   res.1 = PyNone) /\
  (truthy res.1 = true <->
   exists j d r t1 t2,
     loads t = Some j /\
     get "data" (PyDict []) j = Some d /\
     get "result" (PyDict []) d = Some r /\
     get "taskId" PyNone r = Some t1 /\
     get "taskId" PyNone d = Some t2 /\
     (truthy t1 = true \/ truthy t2 = true)) /\
  (forall raw, net w (length (sent w)) = Responded raw None -> res.1 = PyNone) /\
  (forall e, net w (length (sent w)) = Raised e -> res.1 = PyNone).
Proof.
  cbn zeta.
  assert (Hres : (submit_task api request_params w).1 =
                 default PyNone
                   (extract_task_id (response_of (net w (length (sent w)))))).
  { unfold submit_task. io_unfold. reflexivity. }
  set (t := response_of (net w (length (sent w)))) in *.
  assert (Hshape : forall j d r t1 t2,
     loads t = Some j ->
     get "data" (PyDict []) j = Some d ->
     get "result" (PyDict []) d = Some r ->
     get "taskId" PyNone r = Some t1 ->
     get "taskId" PyNone d = Some t2 ->
     (submit_task api request_params w).1 = (if truthy t1 then t1 else t2)).
  { intros j d r t1 t2 Hj Hd Hr H1 H2. rewrite Hres. unfold extract_task_id.
    rewrite Hj. cbn [mbind option_bind]. rewrite Hd. cbn [mbind option_bind].
    rewrite Hr. cbn [mbind option_bind]. rewrite H1. cbn [mbind option_bind].
    destruct (truthy t1); [reflexivity|]. by rewrite H2. }
  split; [|split; [exact Hshape|split; [|split; [|split]]]].
  - unfold submit_task, submit_request. io_unfold. simpl.
    by destruct (startswith api "/ai/image/translation").
  - intros Hnot. rewrite Hres. unfold extract_task_id.
    destruct (loads t) as [j|] eqn:Ej; [|reflexivity]. cbn [mbind option_bind].
    destruct (get "data" (PyDict []) j) as [d|] eqn:Ed; [|reflexivity].
    cbn [mbind option_bind].
    destruct (get "result" (PyDict []) d) as [r|] eqn:Er; [|reflexivity].
    cbn [mbind option_bind].
    destruct (get "taskId" PyNone r) as [t1|] eqn:E1; [|reflexivity].
    by destruct (Hnot j d r t1).
  - split.
    + intros Ht.
      destruct (extract_task_id_truthy t _ (eq_sym Hres) Ht)
        as (j & d & r & t1 & t2 & Hj & Hd & Hr & H1 & H2 & Heq).
      exists j, d, r, t1, t2. repeat (split; [done|]).
      rewrite Heq in Ht. destruct (truthy t1); auto.
    + intros (j & d & r & t1 & t2 & Hj & Hd & Hr & H1 & H2 & Hor).
      rewrite (Hshape j d r t1 t2 Hj Hd Hr H1 H2).
      destruct (truthy t1) eqn:E1; [done|]. by destruct Hor.
  - intros raw Hnet. rewrite Hres. unfold t. by rewrite Hnet.
  - intros e Hnet. rewrite Hres. unfold t. by rewrite Hnet.
Qed.

(** ** The status queries *)

Lemma poll_loop_requests n : forall api q d M w,
  exists k, k <= n /\
    sent (poll_loop n api q d M w).2 =
    (sent w ++ replicate k (make_request api q (contains "/results" api)))%list.
Proof.
  induction n as [|n IH]; intros api q d M w.
  - exists 0. split; [lia|]. simpl. by rewrite app_nil_r.
  - destruct (terminal_response (current w)) eqn:Hnow.
    + exists 1. split; [lia|]. by rewrite (poll_loop_return _ _ _ _ _ _ Hnow).
    + rewrite (poll_loop_continue _ _ _ _ _ _ Hnow).
      destruct (IH api q (next_delay (current w) d M) M (after_poll api q d w))
        as (k & Hk & Hsent).
      exists (S k). split; [lia|]. rewrite Hsent. simpl.
      by rewrite <- app_assoc.
Qed.

(** C5, as the code has it: every query of a poll is the same request.
    Its payload is the JSON text of [{"task_id": task_id}] when the name of
    the query endpoint contains "/ai/virtual/", the dict
    [{"taskId": task_id}] otherwise. When the name contains "/results" the
    request is a GET and carries the payload as query parameters;
    otherwise it is a POST and carries the payload as its body. *)
Theorem poll_task_status_requests (query_api_name : string) (task_id : pyval)
    (max_retries : nat) (initial_delay max_delay : Q) (w : world) :
  let data :=
    if contains "/ai/virtual/" query_api_name
    then DataText (Dumps (PyDict [("task_id", task_id)]))
    else DataDict [("taskId", task_id)] in
  let query :=
    if contains "/results" query_api_name
    then {| req_api_name := query_api_name; req_method := GET;
            req_params := Some data; req_data := None |}
    else {| req_api_name := query_api_name; req_method := POST;
            req_params := None; req_data := Some data |} in
  exists k, k <= max_retries /\
    sent (poll_task_status query_api_name task_id max_retries
            initial_delay max_delay w).2 =
    (sent w ++ replicate k query)%list.
Proof.
  cbn zeta. unfold poll_task_status.
  destruct (poll_loop_requests max_retries query_api_name
              (query_request query_api_name task_id) initial_delay max_delay w)
    as (k & Hk & Hsent).
  exists k. split; [exact Hk|]. rewrite Hsent. reflexivity.
Qed.

(** ** [process_single_request] *)

Lemma process_single_request_unfold api request_params query_api_name w :
  process_single_request api request_params query_api_name w =
  let (task_id, w') := submit_task api request_params w in
  if negb (truthy task_id) then (submission_failed, w')
  else
    let (result, w'') :=
      poll_task_status query_api_name task_id
        default_max_retries default_initial_delay default_max_delay w' in
    (PyDict [("status", PyStr "success"); ("task_id", task_id);
             ("result", val_of_text result)], w'').
Proof.
  unfold process_single_request. unfold mbind at 1. unfold io_bind at 1.
  destruct (submit_task api request_params w) as [task_id w'].
  destruct (negb (truthy task_id)); [reflexivity|].
  unfold mbind, io_bind, mret, io_ret.
  by destruct (poll_task_status _ _ _ _ _ w').
Qed.

(** C6, with the message of the code: when [submit_task] gives no task id
    (a value that is not truthy), [process_single_request] returns the dict
    with status "failed" and message "提交任务失败"; the only request it
    has sent is the submission, and it has not slept. *)
Theorem process_single_request_submission_failed (api : string) (request_params : pyval)
    (query_api_name : string) (w : world) :
  truthy (submit_task api request_params w).1 = false ->
  let res := process_single_request api request_params query_api_name w in
  res.1 = PyDict [("status", PyStr "failed"); ("message", PyStr "提交任务失败")] /\
  res.2 = (submit_task api request_params w).2 /\
  length (sent res.2) = length (sent w) + 1 /\
  slept res.2 = slept w.
Proof.
  intros Hfail. cbn zeta. rewrite process_single_request_unfold.
  destruct (submit_task api request_params w) as [task_id w'] eqn:Hsub.
  simpl in Hfail. rewrite Hfail. cbn [negb fst snd].
  split; [reflexivity|]. split; [reflexivity|].
  unfold submit_task in Hsub. io_unfold. injection Hsub as _ <-. simpl.
  rewrite length_app. simpl. split; [lia | reflexivity].
Qed.

(** ** The batch record *)

Lemma enumerate_fst {A : Type} (l : list A) :
  (enumerate l).*1 = seq 0 (length l).
Proof.
  unfold enumerate. rewrite fmap_imap.
  transitivity (imap (fun (j : nat) (_ : A) => j) l); [by apply imap_ext|].
  rewrite (imap_seq_0 l (fun j => j)). by rewrite list_fmap_id.
Qed.

Lemma await_all_index tasks done : forall items,
  await_all tasks done = Some items -> item_index <$> items = tasks.*1.
Proof.
  induction tasks as [|[i req] tasks IH]; intros items Hitems; simpl in Hitems.
  - by injection Hitems as <-.
  - destruct (done !! i) as [o|]; [|discriminate]. cbn [mbind option_bind] in Hitems.
    destruct (await_all tasks done) as [rest|]; [|discriminate].
    cbn [mbind option_bind] in Hitems. injection Hitems as <-.
    rewrite !fmap_cons, (IH rest eq_refl). by destruct o.
Qed.

Lemma await_all_total tasks done :
  (forall i, i ∈ tasks.*1 -> is_Some (done !! i)) ->
  is_Some (await_all tasks done).
Proof.
  induction tasks as [|[i req] tasks IH]; intros Hdone; simpl; [by eexists|].
  destruct (Hdone i) as [o ->]; [simpl; left|].
  destruct IH as [rest ->].
  { intros k Hk. apply Hdone. simpl. by right. }
  by eexists.
Qed.

Lemma seq_sorted j n : StronglySorted lt (seq j n).
Proof.
  revert j. induction n as [|n IH]; intros j; simpl; constructor; [apply IH|].
  apply Forall_forall. intros k Hk. apply elem_of_seq in Hk. lia.
Qed.

Lemma finished_tasks_lookup requests_data max_concurrent ev i :
  finished_tasks requests_data max_concurrent ev !! i =
  if decide (max_concurrent <> 0 /\ i ∈ completion ev)
  then run_task (nets ev i) <$> requests_data !! i
  else None.
Proof.
  unfold finished_tasks. destruct (Nat.eqb_spec max_concurrent 0) as [->|Hm].
  { rewrite lookup_empty. case_decide as Hd; [|done]. by destruct Hd as [[] _]. }
  assert (Hfold : forall l (acc : gmap nat task_outcome),
    foldl (fun done i =>
             match requests_data !! i with
             | Some req => <[i := run_task (nets ev i) req]> done
             | None => done
             end) acc l !! i =
    if decide (i ∈ l)
    then match requests_data !! i with
         | Some req => Some (run_task (nets ev i) req)
         | None => acc !! i
         end
    else acc !! i).
  { induction l as [|k l IH]; intros acc; cbn [foldl].
    - case_decide as Hin; [by apply elem_of_nil in Hin | done].
    - rewrite IH. destruct (decide (i = k)) as [->|Hne].
      + assert (Hk : k ∈ k :: l) by (apply elem_of_cons; by left).
        rewrite (decide_True _ _ Hk).
        destruct (requests_data !! k) as [req|] eqn:Hreq.
        * rewrite lookup_insert_eq. by case_decide.
        * by case_decide.
      + assert (Hacc : match requests_data !! k with
                       | Some req => <[k := run_task (nets ev k) req]> acc
                       | None => acc
                       end !! i = acc !! i).
        { destruct (requests_data !! k); [by rewrite lookup_insert_ne | done]. }
        rewrite Hacc. destruct (decide (i ∈ l)) as [Hin|Hnin].
        * rewrite decide_True; [done|]. apply elem_of_cons. by right.
        * rewrite decide_False; [done|]. rewrite elem_of_cons. tauto. }
  rewrite Hfold, lookup_empty.
  destruct (decide (i ∈ completion ev)) as [Hin|Hnin].
  - rewrite decide_True; [|done]. by destruct (requests_data !! i).
  - rewrite decide_False; [done|]. tauto.
Qed.

Lemma process_batch_and_save_completes batch_id requests_data max_concurrent ev store :
  max_concurrent <> 0 ->
  (forall i, i < length requests_data -> i ∈ completion ev) ->
  exists items,
    process_batch_and_save batch_id requests_data max_concurrent ev store !! batch_id =
    Some {| status := Completed; results := items |}.
Proof.
  intros Hm Hall. unfold process_batch_and_save.
  destruct (await_all_total (enumerate requests_data)
              (finished_tasks requests_data max_concurrent ev)) as [items ->].
  - intros i Hi. rewrite enumerate_fst in Hi. apply elem_of_seq in Hi.
    rewrite finished_tasks_lookup. rewrite decide_True by (split; [done | apply Hall; lia]).
    destruct (lookup_lt_is_Some_2 requests_data i ltac:(lia)) as [req ->]. by eexists.
  - exists items. by rewrite lookup_insert_eq.
Qed.

(** C1: whatever the event loop does (the order in which the tasks finish
    included), a record of the batch that [process_batch_and_save] has set
    to "completed" holds as many items as the batch has requests; their
    indices are 0, 1, ..., n-1 in this order, hence increasing and without
    duplicate or gap. *)
Theorem process_batch_and_save_items (batch_id : string)
    (requests_data : list api_request) (max_concurrent : nat) (ev : event_loop)
    (store : gmap string batch_record) (r : batch_record) :
  process_batch_and_save batch_id requests_data max_concurrent ev store !! batch_id
    = Some r ->
  status r = Completed ->
  length (results r) = length requests_data /\
  item_index <$> results r = seq 0 (length requests_data) /\
  NoDup (item_index <$> results r) /\
  StronglySorted lt (item_index <$> results r) /\
  (forall i, i ∈ (item_index <$> results r) <-> i < length requests_data).
Proof.
  unfold process_batch_and_save. intros Hrec Hstatus.
  destruct (await_all (enumerate requests_data)
              (finished_tasks requests_data max_concurrent ev)) as [items|] eqn:Hitems.
  - rewrite lookup_insert_eq in Hrec. injection Hrec as <-. simpl.
    apply await_all_index in Hitems. rewrite enumerate_fst in Hitems.
    assert (Hlen : length items = length requests_data).
    { rewrite <- (length_fmap item_index), Hitems. apply length_seq. }
    rewrite Hitems. split; [exact Hlen|]. split; [reflexivity|].
    split; [apply NoDup_seq|]. split; [apply seq_sorted|].
    intros i. rewrite elem_of_seq. lia.
  - rewrite lookup_insert_eq in Hrec. injection Hrec as <-. discriminate.
Qed.

(** ** The semaphore *)

Lemma count_in_flight_app l1 l2 :
  count_in_flight (l1 ++ l2) = count_in_flight l1 + count_in_flight l2.
Proof. induction l1 as [|p l1 IH]; simpl; [done|]. rewrite IH. lia. Qed.

Lemma count_in_flight_acquire l : forall i,
  l !! i = Some Waiting ->
  count_in_flight (<[i := InFlight]> l) = S (count_in_flight l).
Proof.
  induction l as [|p l IH]; intros [|i] Hi; simpl in *; try discriminate.
  - by injection Hi as ->.
  - rewrite (IH i Hi). lia.
Qed.

Lemma count_in_flight_release l r : forall i,
  l !! i = Some InFlight ->
  S (count_in_flight (<[i := Done r]> l)) = count_in_flight l.
Proof.
  induction l as [|p l IH]; intros [|i] Hi; simpl in *; try discriminate.
  - by injection Hi as ->.
  - rewrite <- (IH i Hi). lia.
Qed.

Lemma client_step_conserves c c' :
  client_step c c' ->
  semaphore c' + in_flight c' = semaphore c + in_flight c.
Proof.
  unfold in_flight. intros [c0 | c0 i v Hi Hsem | c0 i o Hi]; simpl.
  - rewrite count_in_flight_app. simpl. lia.
  - rewrite (count_in_flight_acquire _ _ Hi), Hsem. lia.
  - rewrite <- (count_in_flight_release _ (response_of o) _ Hi). lia.
Qed.

(** C7: in every state a client made with [max_concurrent_requests = m]
    can reach, whatever the number of calls and the order of their steps,
    the units left in the semaphore and the calls inside it add up to [m]
    (a call gives its unit back when it returns, with a body or after an
    exception), so at most [m] calls are in flight. *)
Theorem semaphore_bounds_in_flight (m : nat) (c : AsyncApiClient) :
  rtc client_step (new_client m) c ->
  semaphore c + in_flight c = m /\ in_flight c <= m.
Proof.
  intros Hreach.
  assert (Hinv : semaphore c + in_flight c = m).
  { revert c Hreach.
    apply (rtc_ind_r (fun c => semaphore c + in_flight c = m)).
    - unfold in_flight. simpl. lia.
    - intros c c' _ Hstep IH. by rewrite (client_step_conserves _ _ Hstep). }
  split; [exact Hinv | lia].
Qed.

Lemma sum_in_flight_le_limit runs :
  Forall run_conserves runs ->
  sum_list (map (fun b => in_flight (run_client b)) runs) <=
  sum_list (map run_max_concurrent runs).
Proof.
  induction 1 as [|b runs Hb _ IH]; simpl; [lia|].
  unfold run_conserves in Hb. lia.
Qed.

Lemma sum_in_flight_le_default (m : nat) clients :
  Forall (fun c => semaphore c + in_flight c = m) clients ->
  sum_list (map in_flight clients) <= m * length clients.
Proof.
  induction 1 as [|c clients Hc _ IH]; simpl; [lia|].
  rewrite Nat.mul_succ_r. lia.
Qed.

Lemma service_step_conserves s s' :
  service_step s s' ->
  Forall run_conserves (batches s) /\
  Forall (fun c => semaphore c + in_flight c = default_max_concurrent_requests)
    (singles s) ->
  Forall run_conserves (batches s') /\
  Forall (fun c => semaphore c + in_flight c = default_max_concurrent_requests)
    (singles s').
Proof.
  intros [s0 batch_id m | s0 k b c' Hk Hstep | s0 k | s0 | s0 k c c' Hk Hstep | s0 k]
    [Hruns Hsingles]; simpl; (split; [|try exact Hsingles]); try exact Hruns.
  - apply Forall_app. split; [exact Hruns|]. constructor; [|constructor].
    unfold run_conserves, in_flight. simpl. lia.
  - apply Forall_insert; [exact Hruns|].
    unfold run_conserves. simpl. rewrite (client_step_conserves _ _ Hstep).
    exact (proj1 (Forall_lookup _ _) Hruns k b Hk).
  - by apply Forall_delete.
  - apply Forall_app. split; [exact Hsingles|]. constructor; [|constructor].
    unfold in_flight, new_client. cbn [semaphore calls count_in_flight]. lia.
  - apply Forall_insert; [exact Hsingles|].
    rewrite (client_step_conserves _ _ Hstep).
    exact (proj1 (Forall_lookup _ _) Hsingles k c Hk).
  - by apply Forall_delete.
Qed.

(** C8, as the code has it: every batch makes a client, and so a
    semaphore, of its own from its [max_concurrent], and every single
    request one with the default 10. Whatever the batches and single
    requests under way and the order of their steps, the calls in flight of
    each batch are at most its own [max_concurrent], those of each single
    request at most 10, and those of the whole service at most the sum of
    the limits of the clients in use. *)
Theorem per_batch_limiter (s : service) :
  rtc service_step new_service s ->
  Forall (fun b => in_flight (run_client b) <= run_max_concurrent b) (batches s) /\
  Forall (fun c => in_flight c <= default_max_concurrent_requests) (singles s) /\
  total_in_flight s <= total_limit s.
Proof.
  intros Hreach.
  assert (Hinv : Forall run_conserves (batches s) /\
                 Forall (fun c => semaphore c + in_flight c =
                                  default_max_concurrent_requests) (singles s)).
  { revert s Hreach.
    apply (rtc_ind_r (fun s => Forall run_conserves (batches s) /\
             Forall (fun c => semaphore c + in_flight c =
                              default_max_concurrent_requests) (singles s))).
    - split; constructor.
    - intros s s' _ Hstep IH. by eapply service_step_conserves. }
  destruct Hinv as [Hruns Hsingles]. split; [|split].
  - eapply Forall_impl; [exact Hruns|]. unfold run_conserves. intros b Hb. lia.
  - eapply Forall_impl; [exact Hsingles|]. simpl. intros c Hc. lia.
  - unfold total_in_flight, total_limit.
    pose proof (sum_in_flight_le_limit _ Hruns).
    pose proof (sum_in_flight_le_default _ _ Hsingles). lia.
Qed.

(** ** Batch identifiers *)

Lemma process_batch_keeps_store requests max_concurrent s :
  task_results (process_batch requests max_concurrent s).2 = task_results s.
Proof. reflexivity. Qed.

Lemma process_batch_same_id requests1 m1 requests2 m2 s :
  (process_batch requests2 m2 (process_batch requests1 m1 s).2).1 =
  (process_batch requests1 m1 s).1.
Proof. reflexivity. Qed.

(** ** Instances *)

Lemma poll_task_status_result_witness :
  (poll_task_status "/ai/image/translation_mllm/results" (PyStr "T1") 60 1 10
     (new_world finishes_at_third)).1 = response_of finished_body /\
  length (sent (poll_task_status "/ai/image/translation_mllm/results" (PyStr "T1") 60 1 10
     (new_world finishes_at_third)).2) = 3 /\
  length (slept (poll_task_status "/ai/image/translation_mllm/results" (PyStr "T1") 60 1 10
     (new_world finishes_at_third)).2) = 2.
Proof.
  apply (proj1 (poll_task_status_result "/ai/image/translation_mllm/results"
                  (PyStr "T1") 60 1 10 (new_world finishes_at_third)) 2).
  - lia.
  - reflexivity.
  - intros [|[|j]] Hj; [reflexivity | reflexivity | lia].
Defined.

(** With the default 60 retries and a task that stays "running", the
    result is not the JSON text of code -1 and message "polling timed
    out". *)
Lemma poll_timeout_message_differs :
  (poll_task_status "/ai/image/translation_mllm/results" (PyStr "T1") 60 1 10
     (new_world always_running)).1
  <> Dumps (PyDict [("code", PyNum (-1)); ("message", PyStr "polling timed out")]).
Proof. vm_compute. discriminate. Qed.



(** Away from the defaults the floating-point delay is not the closed
    form: the product of the float nearest to 0.1 by 1.5 is rounded. *)
Lemma float_product_rounds :
  match float_to_Q (float_grow 1.5 10 0x1.999999999999ap-4),
        float_to_Q 0x1.999999999999ap-4 with
  | Some grown, Some tenth => ~ (grown == Qmin (tenth * (3 # 2) ^ Z.of_nat 1) 10)%Q
  | _, _ => False
  end.
Proof. vm_compute. discriminate. Qed.

Lemma submit_task_result_witness :
  loads (response_of (net (new_world (fun _ => accepted_body))
                        (length (sent (new_world (fun _ => accepted_body)))))) =
    Some (PyDict [("data", PyDict [("result", PyDict [("taskId", PyStr "T1")])])]) /\
  (submit_task "/ai/image/translation_mllm/batch" (PyList [])
     (new_world (fun _ => accepted_body))).1 = PyStr "T1".
Proof.
  split; [reflexivity|].
  apply (proj1 (proj2 (submit_task_result "/ai/image/translation_mllm/batch"
                         (PyList []) (new_world (fun _ => accepted_body))))
           (PyDict [("data", PyDict [("result", PyDict [("taskId", PyStr "T1")])])])
           (PyDict [("result", PyDict [("taskId", PyStr "T1")])])
           (PyDict [("taskId", PyStr "T1")])
           (PyStr "T1") PyNone); reflexivity.
Defined.

(** The response is valid JSON and holds [data.taskId = "T1"], next to a
    null [data.result]: [submit_task] returns [None]. *)
Lemma submit_task_null_result :
  (submit_task "/ai/image/translation_mllm/batch" (PyList [])
     (new_world (fun _ => null_result_body))).1 = PyNone /\
  loads (response_of null_result_body) =
    Some (PyDict [("data", PyDict [("result", PyNone); ("taskId", PyStr "T1")])]) /\
  get "data" (PyDict [])
    (PyDict [("data", PyDict [("result", PyNone); ("taskId", PyStr "T1")])]) =
    Some (PyDict [("result", PyNone); ("taskId", PyStr "T1")]) /\
  get "taskId" PyNone (PyDict [("result", PyNone); ("taskId", PyStr "T1")]) =
    Some (PyStr "T1").
Proof. repeat split. Qed.

(** A query endpoint whose name contains "/results" without ending in it
    is queried with GET; one that is neither of the "virtual" family nor a
    "/results" endpoint gets the dict as the body of a POST, not as query
    parameters. *)
Lemma query_method_and_placement :
  (req_method <$> sent (poll_task_status "/ai/image/results/v2" (PyStr "T1") 1 1 10
                          (new_world always_running)).2 = [GET] /\
   endswith "/ai/image/results/v2" "/results" = false) /\
  sent (poll_task_status "/ai/image/query" (PyStr "T1") 1 1 10
          (new_world always_running)).2 =
    [{| req_api_name := "/ai/image/query"; req_method := POST;
        req_params := None;
        req_data := Some (DataDict [("taskId", PyStr "T1")]) |}].
Proof. repeat split. Qed.

Lemma process_single_request_submission_failed_witness :
  truthy (submit_task "/ai/image/translation_mllm/batch" (PyList [])
            (new_world transport_down)).1 = false /\
  (process_single_request "/ai/image/translation_mllm/batch" (PyList [])
     "/ai/image/translation_mllm/results" (new_world transport_down)).1 =
  PyDict [("status", PyStr "failed"); ("message", PyStr "提交任务失败")].
Proof.
  split; [reflexivity|].
  apply (process_single_request_submission_failed
           "/ai/image/translation_mllm/batch" (PyList [])
           "/ai/image/translation_mllm/results" (new_world transport_down)).
  reflexivity.
Defined.

(** The failure that [process_single_request] returns does not carry the
    reason "submission failed". *)
Lemma submission_failure_message_differs :
  (process_single_request "/ai/image/translation_mllm/batch" (PyList [])
     "/ai/image/translation_mllm/results" (new_world transport_down)).1
  <> PyDict [("status", PyStr "failed"); ("message", PyStr "submission failed")].
Proof. vm_compute. discriminate. Qed.

Lemma process_batch_and_save_items_witness :
  process_batch_and_save "batch_1" [example_request; example_request] 5
    example_loop ∅ !! "batch_1" =
    Some {| status := Completed;
            results := [ItemResult 0 submission_failed;
                        ItemResult 1 submission_failed] |} /\
  item_index <$> [ItemResult 0 submission_failed; ItemResult 1 submission_failed]
    = seq 0 2.
Proof.
  assert (Hrec : process_batch_and_save "batch_1" [example_request; example_request] 5
            example_loop ∅ !! "batch_1" =
          Some {| status := Completed;
                  results := [ItemResult 0 submission_failed;
                              ItemResult 1 submission_failed] |})
    by (vm_compute; reflexivity).
  split; [exact Hrec|].
  apply (process_batch_and_save_items "batch_1" [example_request; example_request] 5
           example_loop ∅ _ Hrec eq_refl).
Defined.

Lemma one_call_in_flight :
  rtc client_step (new_client 1) {| semaphore := 0; calls := [InFlight] |}.
Proof.
  eapply rtc_l; [apply step_invoke|].
  eapply rtc_l; [apply (step_acquire _ 0 0); reflexivity|].
  apply rtc_refl.
Qed.

Lemma semaphore_bounds_in_flight_witness :
  rtc client_step (new_client 1) {| semaphore := 0; calls := [InFlight] |} /\
  in_flight {| semaphore := 0; calls := [InFlight] |} <= 1.
Proof.
  split; [exact one_call_in_flight|].
  apply (semaphore_bounds_in_flight 1 _ one_call_in_flight).
Defined.

Lemma two_batches_reachable :
  rtc service_step new_service
    {| batches := two_batches_in_flight; singles := [] |}.
Proof.
  eapply rtc_l; [apply (step_start new_service "batch_1" 1)|].
  eapply rtc_l; [apply (step_start _ "batch_2" 1)|].
  eapply rtc_l; [eapply (step_client _ 0); [reflexivity | apply step_invoke]|].
  eapply rtc_l;
    [eapply (step_client _ 0); [reflexivity | apply (step_acquire _ 0 0); reflexivity]|].
  eapply rtc_l; [eapply (step_client _ 1); [reflexivity | apply step_invoke]|].
  eapply rtc_l;
    [eapply (step_client _ 1); [reflexivity | apply (step_acquire _ 0 0); reflexivity]|].
  apply rtc_refl.
Qed.

(** Two batches, both submitted with [max_concurrent = 1], have two calls
    in flight at the same time. *)
Lemma two_batches_exceed_one_limit :
  rtc service_step new_service
    {| batches := two_batches_in_flight; singles := [] |} /\
  Forall (fun b => run_max_concurrent b = 1) two_batches_in_flight /\
  total_in_flight {| batches := two_batches_in_flight; singles := [] |} = 2.
Proof.
  split; [exact two_batches_reachable|].
  split; [repeat constructor | reflexivity].
Qed.

Lemma per_batch_limiter_witness :
  rtc service_step new_service
    {| batches := two_batches_in_flight; singles := [] |} /\
  total_in_flight {| batches := two_batches_in_flight; singles := [] |} <=
  total_limit {| batches := two_batches_in_flight; singles := [] |}.
Proof.
  split; [exact two_batches_reachable|].
  apply (per_batch_limiter _ two_batches_reachable).
Defined.

(** The request is cancelled while it is under way: [invoke_api] returns
    no string, the [CancelledError] reaches the caller. *)
Lemma cancellation_escapes_invoke_api :
  invoke_api_try (Raises (BaseExc "CancelledError")) = inl "CancelledError" /\
  forall s, invoke_api_try (Raises (BaseExc "CancelledError")) <> inr s.
Proof. split; [reflexivity | discriminate]. Qed.

Lemma invoke_api_total_witness :
  (forall e, Raises (Exc "timeout") <> Raises (BaseExc e)) /\
  exists s, invoke_api_try (Raises (Exc "timeout")) = inr s.
Proof.
  assert (Hne : forall e, Raises (Exc "timeout") <> Raises (BaseExc e))
    by discriminate.
  split; [exact Hne|].
  apply (proj2 (proj1 (proj2 (proj2 (proj2
           (invoke_api_total "/ai/image/translation_mllm/batch" (DataDict []) false
              (new_world transport_down))))) (Raises (Exc "timeout")))).
  exact Hne.
Defined.

(** C9 on the code: two batches submitted one after the other, before the
    background task of the first has started, get the same identifier
    "batch_1"; and a read of that identifier right after the submission
    finds no record. *)
Theorem process_batch_reuses_identifier :
  (process_batch [example_request] 5 new_server).1 = "batch_1" /\
  (process_batch [example_request; example_request] 5
     (process_batch [example_request] 5 new_server).2).1 = "batch_1" /\
  get_batch_result "batch_1" (process_batch [example_request] 5 new_server).2 = None /\
  status <$> get_batch_result "batch_1"
    (run_background example_loop (process_batch [example_request] 5 new_server).2)
    = Some Completed.
Proof. repeat split; vm_compute; reflexivity. Qed.

(** * Further properties *)

(** ** What the poller returns and how long it sleeps *)

Lemma terminal_response_loads t :
  terminal_response t = true -> is_Some (loads t).
Proof.
  unfold terminal_response, task_status.
  destruct (loads t) as [j|]; [by eexists | discriminate].
Qed.

Lemma poll_loop_returns n : forall api q d M w,
  (poll_loop n api q d M w).1 = timeout_result \/
  terminal_response (poll_loop n api q d M w).1 = true.
Proof.
  induction n as [|n IH]; intros api q d M w; [by left|].
  destruct (terminal_response (current w)) eqn:Hnow.
  - right. by rewrite (poll_loop_return _ _ _ _ _ _ Hnow).
  - rewrite (poll_loop_continue _ _ _ _ _ _ Hnow). apply IH.
Qed.

(** X1: the string that [poll_task_status] returns is the timeout payload
    or a body whose [data.taskStatus] is "finished" or "failed", never a
    body of another kind; in both cases [json.loads] accepts it. *)
Theorem poll_task_status_returns (query_api_name : string) (task_id : pyval)
    (max_retries : nat) (initial_delay max_delay : Q) (w : world) :
  let r := (poll_task_status query_api_name task_id max_retries
              initial_delay max_delay w).1 in
  (r = Dumps (PyDict [("code", PyNum (-1)); ("message", PyStr "任务轮询超时")]) \/
   exists j d,
     loads r = Some j /\ get "data" (PyDict []) j = Some d /\
     (get "taskStatus" PyNone d = Some (PyStr "finished") \/
      get "taskStatus" PyNone d = Some (PyStr "failed"))) /\
  is_Some (loads r).
Proof.
  cbn zeta. unfold poll_task_status.
  destruct (poll_loop_returns max_retries query_api_name
              (query_request query_api_name task_id) initial_delay max_delay w)
    as [Hout | Hterm].
  - rewrite Hout. split; [by left | by eexists].
  - split; [right; by apply terminal_response_spec|].
    by apply terminal_response_loads.
Qed.

Lemma poll_loop_sleep_count n : forall api q d M w,
  length (sent (poll_loop n api q d M w).2) + length (slept w) =
  length (sent w) + length (slept (poll_loop n api q d M w).2) +
  (if terminal_response (poll_loop n api q d M w).1 then 1 else 0).
Proof.
  induction n as [|n IH]; intros api q d M w.
  - simpl. lia.
  - destruct (terminal_response (current w)) eqn:Hnow.
    + rewrite (poll_loop_return _ _ _ _ _ _ Hnow). cbn [fst snd sent slept].
      rewrite Hnow, length_app. simpl. lia.
    + rewrite (poll_loop_continue _ _ _ _ _ _ Hnow).
      specialize (IH api q (next_delay (current w) d M) M (after_poll api q d w)).
      simpl in IH. rewrite !length_app in IH. simpl in IH. lia.
Qed.

Lemma poll_loop_slept_grows n : forall api q d M w,
  length (slept w) <= length (slept (poll_loop n api q d M w).2).
Proof.
  induction n as [|n IH]; intros api q d M w; [simpl; lia|].
  destruct (terminal_response (current w)) eqn:Hnow.
  - rewrite (poll_loop_return _ _ _ _ _ _ Hnow). simpl. lia.
  - rewrite (poll_loop_continue _ _ _ _ _ _ Hnow).
    specialize (IH api q (next_delay (current w) d M) M (after_poll api q d w)).
    simpl in IH. rewrite length_app in IH. simpl in IH. lia.
Qed.

(** X2: the poller sleeps once after every query whose response is not
    terminal, the last query before a timeout included: a poll that returns
    a terminal body has slept one time less than it has queried, and a poll
    that times out as many times as it has queried. *)
Theorem poll_task_status_sleep_count (query_api_name : string) (task_id : pyval)
    (max_retries : nat) (initial_delay max_delay : Q) (w : world) :
  let res := poll_task_status query_api_name task_id max_retries
               initial_delay max_delay w in
  length (sent res.2) - length (sent w) =
  length (slept res.2) - length (slept w) +
  (if terminal_response res.1 then 1 else 0) /\
  length (sent w) <= length (sent res.2) /\
  length (slept w) <= length (slept res.2).
Proof.
  cbn zeta. unfold poll_task_status.
  pose proof (poll_loop_sleep_count max_retries query_api_name
                (query_request query_api_name task_id) initial_delay max_delay w)
    as Hcount.
  destruct (poll_loop_requests max_retries query_api_name
              (query_request query_api_name task_id) initial_delay max_delay w)
    as (k & _ & Hsent).
  pose proof (poll_loop_slept_grows max_retries query_api_name
                (query_request query_api_name task_id) initial_delay max_delay w)
    as Hgrow.
  rewrite Hsent in *. rewrite length_app, length_replicate in *.
  destruct (terminal_response _); lia.
Qed.

Lemma next_delay_bounds r d M :
  (0 <= d)%Q -> (d <= M)%Q ->
  (d <= next_delay r d M)%Q /\ (next_delay r d M <= M)%Q.
Proof.
  intros H0 HM. unfold next_delay.
  destruct (task_status r); (split; [apply Q.min_glb; lra | apply Q.le_min_r]).
Qed.

Lemma poll_loop_sleeps n : forall api q d M w,
  (0 <= d)%Q -> (d <= M)%Q ->
  exists delays,
    slept (poll_loop n api q d M w).2 = (slept w ++ delays)%list /\
    length delays <= n /\
    Forall (fun x => (d <= x)%Q /\ (x <= M)%Q) delays.
Proof.
  induction n as [|n IH]; intros api q d M w H0 HM.
  - exists []. simpl. rewrite app_nil_r. repeat split; [lia | constructor].
  - destruct (terminal_response (current w)) eqn:Hnow.
    + exists []. rewrite (poll_loop_return _ _ _ _ _ _ Hnow). simpl.
      rewrite app_nil_r. repeat split; [lia | constructor].
    + rewrite (poll_loop_continue _ _ _ _ _ _ Hnow).
      destruct (next_delay_bounds (current w) d M H0 HM) as [Hlo Hhi].
      destruct (IH api q (next_delay (current w) d M) M (after_poll api q d w))
        as (delays & Hslept & Hlen & Hall); [lra | exact Hhi |].
      exists (d :: delays). rewrite Hslept. simpl. rewrite <- app_assoc.
      split; [reflexivity|]. split; [lia|].
      constructor; [split; lra|].
      eapply Forall_impl; [exact Hall|]. simpl. intros x [Hx1 Hx2]. split; lra.
Qed.

Lemma total_sleep_le (M : Q) delays :
  (0 <= M)%Q ->
  Forall (fun x => (x <= M)%Q) delays ->
  forall n, length delays <= n ->
  (total_sleep delays <= inject_Z (Z.of_nat n) * M)%Q.
Proof.
  intros HM Hall. induction Hall as [|x delays Hx _ IH]; intros n Hn.
  - simpl. assert (0 <= inject_Z (Z.of_nat n))%Q.
    { change 0%Q with (inject_Z 0). rewrite <- Zle_Qle. lia. }
    nra.
  - destruct n as [|n]; [simpl in Hn; lia|].
    assert (Hn' : length delays <= n) by (simpl in Hn; lia).
    specialize (IH n Hn').
    change (total_sleep (x :: delays)) with (x + total_sleep delays)%Q.
    rewrite Nat2Z.inj_succ. unfold Z.succ. rewrite inject_Z_plus.
    change (inject_Z 1) with 1%Q.
    set (t := total_sleep delays) in *. set (a := inject_Z (Z.of_nat n)) in *.
    rewrite Qmult_plus_distr_l. lra.
Qed.

(** X3: started with [0 <= initial_delay <= max_delay], every delay the
    poller sleeps lies between [initial_delay] and [max_delay], it sleeps
    at most [max_retries] times, and so for at most
    [max_retries * max_delay] in all. *)
Theorem poll_task_status_sleep_bounds (query_api_name : string) (task_id : pyval)
    (max_retries : nat) (initial_delay max_delay : Q) (w : world) :
  (0 <= initial_delay)%Q -> (initial_delay <= max_delay)%Q ->
  exists delays,
    slept (poll_task_status query_api_name task_id max_retries
             initial_delay max_delay w).2 = (slept w ++ delays)%list /\
    length delays <= max_retries /\
    Forall (fun x => (initial_delay <= x)%Q /\ (x <= max_delay)%Q) delays /\
    (total_sleep delays <= inject_Z (Z.of_nat max_retries) * max_delay)%Q.
Proof.
  intros H0 HM. unfold poll_task_status.
  destruct (poll_loop_sleeps max_retries query_api_name
              (query_request query_api_name task_id) initial_delay max_delay w H0 HM)
    as (delays & Hslept & Hlen & Hall).
  exists delays. repeat split; try done.
  apply total_sleep_le; [lra | | exact Hlen].
  eapply Forall_impl; [exact Hall|]. by intros x [_ Hx].
Qed.

Lemma poll_task_status_sleep_bounds_witness :
  (0 <= 1)%Q /\ (1 <= 10)%Q /\
  exists delays,
    slept (poll_task_status "/ai/image/translation_mllm/results" (PyStr "T1") 60 1 10
             (new_world always_running)).2 =
      (slept (new_world always_running) ++ delays)%list /\
    length delays <= 60 /\
    Forall (fun x => (1 <= x)%Q /\ (x <= 10)%Q) delays /\
    (total_sleep delays <= inject_Z (Z.of_nat 60) * 10)%Q.
Proof.
  assert (H0 : (0 <= 1)%Q) by (unfold Qle; simpl; lia).
  assert (HM : (1 <= 10)%Q) by (unfold Qle; simpl; lia).
  split; [exact H0|]. split; [exact HM|].
  apply (poll_task_status_sleep_bounds "/ai/image/translation_mllm/results"
           (PyStr "T1") 60 1 10 (new_world always_running) H0 HM).
Defined.

(** ** The outcome and the requests of [process_single_request] *)

(** X4: the status that [process_single_request] reports only tells
    whether the submission gave a task id. With a task id the outcome is
    always "success", and its result is a body with a terminal status (a
    "failed" task included) or the timeout payload; without one it is the
    "failed" outcome. *)
Theorem process_single_request_outcome (api : string) (request_params : pyval)
    (query_api_name : string) (w : world) :
  let task_id := (submit_task api request_params w).1 in
  let res := process_single_request api request_params query_api_name w in
  if truthy task_id
  then exists r,
         res.1 = PyDict [("status", PyStr "success"); ("task_id", task_id);
                         ("result", val_of_text r)] /\
         (r = timeout_result \/ terminal_response r = true)
  else res.1 = PyDict [("status", PyStr "failed"); ("message", PyStr "提交任务失败")].
Proof.
  cbn zeta. rewrite process_single_request_unfold.
  destruct (submit_task api request_params w) as [task_id w']. cbn [fst].
  destruct (truthy task_id); cbn [negb]; [|reflexivity].
  pose proof (poll_loop_returns default_max_retries query_api_name
                (query_request query_api_name task_id)
                default_initial_delay default_max_delay w') as Hret.
  unfold poll_task_status.
  destruct (poll_loop _ _ _ _ _ w') as [r w'']. cbn [fst] in *.
  exists r. split; [reflexivity | exact Hret].
Qed.

(** X5: [process_single_request] first posts the submission to
    [api_name]; all the requests after it, at most 60, are the same status
    query to [query_api], and there is none when the submission gave no
    task id. *)
Theorem process_single_request_requests (api : string) (request_params : pyval)
    (query_api_name : string) (w : world) :
  let task_id := (submit_task api request_params w).1 in
  exists k,
    k <= 60 /\
    (truthy task_id = false -> k = 0) /\
    sent (process_single_request api request_params query_api_name w).2 =
    (sent w ++
     make_request api (DataText (Dumps (submit_request api request_params))) false ::
     replicate k (make_request query_api_name
                    (query_request query_api_name task_id)
                    (contains "/results" query_api_name)))%list.
Proof.
  cbn zeta. rewrite process_single_request_unfold.
  destruct (submit_task api request_params w) as [task_id w'] eqn:Hsub. cbn [fst].
  assert (Hsent : sent w' =
    (sent w ++ [make_request api
                  (DataText (Dumps (submit_request api request_params))) false])%list).
  { unfold submit_task in Hsub. io_unfold. by injection Hsub as _ <-. }
  destruct (truthy task_id); cbn [negb].
  - destruct (poll_loop_requests default_max_retries query_api_name
                (query_request query_api_name task_id)
                default_initial_delay default_max_delay w') as (k & Hk & Hpoll).
    unfold poll_task_status.
    destruct (poll_loop _ _ _ _ _ w') as [r w'']. cbn [snd] in *.
    exists k. split; [exact Hk|]. split; [discriminate|].
    rewrite Hpoll, Hsent. by rewrite <- app_assoc.
  - exists 0. split; [lia|]. split; [reflexivity|]. exact Hsent.
Qed.

Lemma process_single_request_requests_witness :
  truthy (submit_task "/ai/image/translation_mllm/batch" (PyList [])
            (new_world transport_down)).1 = false /\
  exists k,
    k <= 60 /\
    (truthy (submit_task "/ai/image/translation_mllm/batch" (PyList [])
               (new_world transport_down)).1 = false -> k = 0) /\
    sent (process_single_request "/ai/image/translation_mllm/batch" (PyList [])
            "/ai/image/translation_mllm/results" (new_world transport_down)).2 =
    (sent (new_world transport_down) ++
     make_request "/ai/image/translation_mllm/batch"
       (DataText (Dumps (submit_request "/ai/image/translation_mllm/batch" (PyList []))))
       false ::
     replicate k (make_request "/ai/image/translation_mllm/results"
                    (query_request "/ai/image/translation_mllm/results"
                       (submit_task "/ai/image/translation_mllm/batch" (PyList [])
                          (new_world transport_down)).1)
                    (contains "/results" "/ai/image/translation_mllm/results")))%list.
Proof.
  split; [reflexivity|].
  apply (process_single_request_requests "/ai/image/translation_mllm/batch"
           (PyList []) "/ai/image/translation_mllm/results"
           (new_world transport_down)).
Defined.

(** ** [process_api] *)

Lemma process_api_unfold request w :
  process_api request w =
  let (task_id, w') := submit_task (api_name request) (params request) w in
  if negb (truthy task_id)
  then (Fault 500 "处理请求异常: " (HTTPException 400 "提交任务失败"), w')
  else
    let (result, w'') :=
      poll_task_status (query_api request) task_id
        default_max_retries default_initial_delay default_max_delay w' in
    (match loads result with
     | Some result_json =>
         Answer (PyDict [("task_id", task_id); ("result", result_json)])
     | None => Fault 500 "处理请求异常: " JSONDecodeError
     end, w'').
Proof.
  unfold process_api, process_api_try.
  unfold mbind at 1. unfold io_bind at 1. unfold mbind at 1. unfold io_bind at 1.
  destruct (submit_task (api_name request) (params request) w) as [task_id w'].
  destruct (negb (truthy task_id)); [reflexivity|].
  unfold mbind, io_bind, mret, io_ret.
  destruct (poll_task_status _ _ _ _ _ w') as [result w''].
  by destruct (loads result).
Qed.

(** X6: [process_api] never answers with status 400. When the submission
    gives no task id, the [HTTPException] with status 400 is raised inside
    the [try] block and comes out as a status 500; when it gives one, the
    answer is the dict with the task id and the parsed result of the poll,
    since what the poller returns always parses. *)
Theorem process_api_answer (request : api_request) (w : world) :
  let sub := submit_task (api_name request) (params request) w in
  let ans := (process_api request w).1 in
  (truthy sub.1 = false ->
   ans = Fault 500 "处理请求异常: " (HTTPException 400 "提交任务失败")) /\
  (truthy sub.1 = true ->
   exists result_json,
     loads (poll_task_status (query_api request) sub.1 default_max_retries
              default_initial_delay default_max_delay sub.2).1 = Some result_json /\
     ans = Answer (PyDict [("task_id", sub.1); ("result", result_json)])) /\
  (forall status_code prefix cause,
     ans = Fault status_code prefix cause ->
     status_code = 500 /\ cause = HTTPException 400 "提交任务失败").
Proof.
  cbn zeta. rewrite process_api_unfold.
  destruct (submit_task (api_name request) (params request) w) as [task_id w'].
  cbn [fst snd].
  pose proof (poll_loop_returns default_max_retries (query_api request)
                (query_request (query_api request) task_id)
                default_initial_delay default_max_delay w') as Hret.
  unfold poll_task_status.
  destruct (truthy task_id); cbn [negb].
  - destruct (poll_loop _ _ _ _ _ w') as [r w'']. cbn [fst] in *.
    assert (Hloads : is_Some (loads r)).
    { destruct Hret as [-> | Hterm]; [by eexists|].
      by apply terminal_response_loads. }
    destruct Hloads as [result_json Hloads]. rewrite Hloads.
    split; [discriminate|]. split; [by exists result_json|].
    intros status_code prefix cause Habs. discriminate.
  - split; [reflexivity|]. split; [discriminate|].
    intros status_code prefix cause Heq. by injection Heq as <- <- <-.
Qed.

Lemma process_api_answer_witness :
  truthy (submit_task (api_name example_request) (params example_request)
            (new_world transport_down)).1 = false /\
  (process_api example_request (new_world transport_down)).1 =
  Fault 500 "处理请求异常: " (HTTPException 400 "提交任务失败").
Proof.
  split; [reflexivity|].
  apply (proj1 (process_api_answer example_request (new_world transport_down))).
  reflexivity.
Defined.

(** ** Query endpoints that end in "/results" *)

Lemma prefix_refl s : String.prefix s s = true.
Proof. induction s as [|a s IH]; simpl; [done|]. by destruct (ascii_dec a a). Qed.

Lemma endswith_contains s suffix :
  endswith s suffix = true -> contains suffix s = true.
Proof.
  induction s as [|a s IH]; cbn [endswith contains]; intros H.
  - rewrite orb_false_r in H. apply String.eqb_eq in H. subst. reflexivity.
  - apply orb_true_iff in H as [H|H].
    + apply String.eqb_eq in H. subst. by rewrite prefix_refl.
    + rewrite (IH H). apply orb_true_r.
Qed.

(** X7: a query endpoint whose name ends in "/results" is always queried
    with GET, its payload in the query parameters and no body. *)
Theorem results_endpoint_queried_with_get (query_api_name : string) (task_id : pyval)
    (max_retries : nat) (initial_delay max_delay : Q) (w : world) :
  endswith query_api_name "/results" = true ->
  exists k,
    sent (poll_task_status query_api_name task_id max_retries
            initial_delay max_delay w).2 =
    (sent w ++
     replicate k {| req_api_name := query_api_name; req_method := GET;
                    req_params := Some (query_request query_api_name task_id);
                    req_data := None |})%list.
Proof.
  intros Hends. unfold poll_task_status.
  destruct (poll_loop_requests max_retries query_api_name
              (query_request query_api_name task_id) initial_delay max_delay w)
    as (k & _ & Hsent).
  exists k. rewrite Hsent. unfold make_request.
  by rewrite (endswith_contains _ _ Hends).
Qed.

Lemma results_endpoint_queried_with_get_witness :
  endswith "/ai/image/translation_mllm/results" "/results" = true /\
  exists k,
    sent (poll_task_status "/ai/image/translation_mllm/results" (PyStr "T1") 60 1 10
            (new_world finishes_at_third)).2 =
    (sent (new_world finishes_at_third) ++
     replicate k {| req_api_name := "/ai/image/translation_mllm/results";
                    req_method := GET;
                    req_params := Some (query_request "/ai/image/translation_mllm/results"
                                          (PyStr "T1"));
                    req_data := None |})%list.
Proof.
  split; [reflexivity|].
  apply (results_endpoint_queried_with_get "/ai/image/translation_mllm/results"
           (PyStr "T1") 60 1 10 (new_world finishes_at_third)).
  reflexivity.
Defined.

(** ** When a batch completes, and with what *)

Lemma await_all_awaits tasks done : forall items,
  await_all tasks done = Some items ->
  forall i, i ∈ tasks.*1 -> is_Some (done !! i).
Proof.
  induction tasks as [|[k req] tasks IH]; intros items Hitems i Hi.
  - by apply elem_of_nil in Hi.
  - simpl in Hitems.
    destruct (done !! k) as [o|] eqn:Hk; [|discriminate].
    cbn [mbind option_bind] in Hitems.
    destruct (await_all tasks done) as [rest|]; [|discriminate].
    rewrite fmap_cons in Hi. apply elem_of_cons in Hi as [-> | Hi].
    + simpl. rewrite Hk. by eexists.
    + by apply (IH rest).
Qed.

Lemma await_all_returned (v : nat -> api_request -> pyval)
    (done : gmap nat task_outcome) (l : list api_request) :
  forall g : nat -> nat,
  (forall i req, l !! i = Some req -> done !! g i = Some (Returned (v (g i) req))) ->
  await_all (imap (fun i req => (g i, req)) l) done =
  Some (imap (fun i req => ItemResult (g i) (v (g i) req)) l).
Proof.
  induction l as [|req l IH]; intros g Hdone; [reflexivity|].
  cbn [imap await_all]. rewrite (Hdone 0 req eq_refl). cbn [mbind option_bind].
  assert (Hrest : await_all (imap ((fun i req => (g i, req)) ∘ S) l) done =
                  Some (imap ((fun i req => ItemResult (g i) (v (g i) req)) ∘ S) l)).
  { apply (IH (g ∘ S)). intros i r Hi. apply (Hdone (S i) r Hi). }
  rewrite Hrest. reflexivity.
Qed.

Lemma all_finished_iff requests_data max_concurrent ev :
  (forall i, i ∈ (enumerate requests_data).*1 ->
     is_Some (finished_tasks requests_data max_concurrent ev !! i)) <->
  (forall i, i < length requests_data ->
     max_concurrent <> 0 /\ i ∈ completion ev).
Proof.
  rewrite enumerate_fst. split; intros H i Hi.
  - specialize (H i). rewrite elem_of_seq, finished_tasks_lookup in H.
    destruct (H ltac:(lia)) as [o Ho]. by case_decide.
  - apply elem_of_seq in Hi. rewrite finished_tasks_lookup.
    rewrite decide_True by (apply H; lia).
    destruct (lookup_lt_is_Some_2 requests_data i ltac:(lia)) as [req ->].
    by eexists.
Qed.

Lemma process_batch_and_save_completes_nat batch_id requests_data max_concurrent ev
    (store : gmap string batch_record) :
  let r := process_batch_and_save batch_id requests_data max_concurrent ev store
             !! batch_id in
  (status <$> r = Some Completed <->
   forall i, i < length requests_data -> max_concurrent <> 0 /\ i ∈ completion ev) /\
  (status <$> r = Some Completed \/
   r = Some {| status := Processing; results := [] |}).
Proof.
  cbn zeta. unfold process_batch_and_save.
  rewrite <- all_finished_iff.
  destruct (await_all (enumerate requests_data)
              (finished_tasks requests_data max_concurrent ev)) as [items|] eqn:Hitems;
    rewrite lookup_insert_eq; simpl.
  - split; [|by left]. split; [|done]. intros _. by eapply await_all_awaits.
  - split; [|by right]. split; [discriminate|].
    intros Hall. apply await_all_total in Hall. rewrite Hitems in Hall.
    by destruct Hall.
Qed.

(** X8: with the [max_concurrent] of the request, an optional integer,
    [process_batch_and_save] sets the record of its batch to "completed"
    exactly when [max_concurrent] is an integer that is not negative (the
    semaphore can be made) and every task of the batch finishes (which, for
    a batch that is not empty, needs it to be positive); in every other
    case the record stays "processing" with no result. *)
Theorem process_batch_and_save_completes_iff (batch_id : string)
    (requests_data : list api_request) (max_concurrent : option Z) (ev : event_loop)
    (store : gmap string batch_record) :
  let r := process_batch_and_save_int batch_id requests_data max_concurrent ev store
             !! batch_id in
  (status <$> r = Some Completed <->
   exists value,
     max_concurrent = Some value /\ (0 <= value)%Z /\
     forall i, i < length requests_data -> value <> 0%Z /\ i ∈ completion ev) /\
  (status <$> r = Some Completed \/
   r = Some {| status := Processing; results := [] |}).
Proof.
  cbn zeta. unfold process_batch_and_save_int.
  destruct max_concurrent as [value|].
  - destruct (Z.ltb_spec value 0) as [Hneg | Hpos].
    + rewrite lookup_insert_eq. simpl. split; [|by right].
      split; [discriminate|]. intros (v & Hv & Hle & _).
      injection Hv as <-. lia.
    + destruct (process_batch_and_save_completes_nat batch_id requests_data
                  (Z.to_nat value) ev store) as [Hiff Hor].
      cbn zeta in Hiff, Hor. split; [|exact Hor].
      rewrite Hiff. split.
      * intros Hall. exists value. split; [reflexivity|]. split; [exact Hpos|].
        intros i Hi. destruct (Hall i Hi) as [Hne Hin]. split; [lia | exact Hin].
      * intros (v & Hv & Hle & Hall) i Hi. injection Hv as <-.
        destruct (Hall i Hi) as [Hne Hin]. split; [lia | exact Hin].
  - rewrite lookup_insert_eq. simpl. split; [|by right].
    split; [discriminate|]. by intros (v & Hv & _).
Qed.

Lemma process_batch_and_save_completes_iff_witness :
  (exists value,
     Some 5%Z = Some value /\ (0 <= value)%Z /\
     forall i, i < length [example_request; example_request] ->
       value <> 0%Z /\ i ∈ completion example_loop) /\
  status <$> (process_batch_and_save_int "batch_1" [example_request; example_request]
                (Some 5%Z) example_loop ∅ !! "batch_1") = Some Completed.
Proof.
  assert (Hall : exists value,
     Some 5%Z = Some value /\ (0 <= value)%Z /\
     forall i, i < length [example_request; example_request] ->
       value <> 0%Z /\ i ∈ completion example_loop).
  { exists 5%Z. split; [reflexivity|]. split; [lia|].
    intros i Hi. split; [lia|]. simpl in Hi. apply list_elem_of_In.
    destruct i as [|[|i]]; simpl; [tauto | tauto | lia]. }
  split; [exact Hall|].
  apply (proj2 (proj1 (process_batch_and_save_completes_iff "batch_1"
                         [example_request; example_request] (Some 5%Z)
                         example_loop ∅))).
  exact Hall.
Defined.

(** X9: in a completed record the item at position [i] is the result of
    [process_single_request] on request [i] against the responses to that
    task alone: no item is an error item, and the fate of one task (a
    failed submission, a timeout) changes no other item. *)
Theorem process_batch_and_save_results (batch_id : string)
    (requests_data : list api_request) (max_concurrent : nat) (ev : event_loop)
    (store : gmap string batch_record) (r : batch_record) :
  process_batch_and_save batch_id requests_data max_concurrent ev store !! batch_id
    = Some r ->
  status r = Completed ->
  results r = imap (item_of ev) requests_data.
Proof.
  unfold process_batch_and_save. intros Hrec Hstatus.
  destruct (await_all (enumerate requests_data)
              (finished_tasks requests_data max_concurrent ev)) as [items|] eqn:Hitems;
    rewrite lookup_insert_eq in Hrec; injection Hrec as <-; [|discriminate].
  simpl. pose proof (proj1 (all_finished_iff _ _ _)
                       (await_all_awaits _ _ _ Hitems)) as Hall.
  unfold enumerate in Hitems.
  rewrite (await_all_returned
             (fun i req => (process_single_request (api_name req) (params req)
                              (query_api req) (new_world (nets ev i))).1)
             _ requests_data (fun i => i)) in Hitems.
  - by injection Hitems as <-.
  - intros i req Hi. rewrite finished_tasks_lookup, Hi.
    rewrite decide_True; [reflexivity|].
    apply Hall. by eapply lookup_lt_Some.
Qed.

Lemma process_batch_and_save_results_witness :
  process_batch_and_save "batch_1" [example_request; example_request] 5
    example_loop ∅ !! "batch_1" =
    Some {| status := Completed;
            results := [ItemResult 0 submission_failed;
                        ItemResult 1 submission_failed] |} /\
  [ItemResult 0 submission_failed; ItemResult 1 submission_failed] =
    imap (item_of example_loop) [example_request; example_request].
Proof.
  assert (Hrec : process_batch_and_save "batch_1" [example_request; example_request] 5
            example_loop ∅ !! "batch_1" =
          Some {| status := Completed;
                  results := [ItemResult 0 submission_failed;
                              ItemResult 1 submission_failed] |})
    by (vm_compute; reflexivity).
  split; [exact Hrec|].
  apply (process_batch_and_save_results "batch_1" [example_request; example_request] 5
           example_loop ∅ _ Hrec eq_refl).
Defined.

(** X10: the store that [process_batch_and_save] leaves does not depend on
    the order in which the tasks finish: two event loops with the same
    responses whose completion orders are permutations of each other give
    the same store. *)
Theorem process_batch_and_save_order_independent (batch_id : string)
    (requests_data : list api_request) (max_concurrent : nat) (ev ev' : event_loop)
    (store : gmap string batch_record) :
  nets ev' = nets ev ->
  completion ev' ≡ₚ completion ev ->
  process_batch_and_save batch_id requests_data max_concurrent ev' store =
  process_batch_and_save batch_id requests_data max_concurrent ev store.
Proof.
  intros Hnets Hperm. unfold process_batch_and_save.
  assert (Hdone : finished_tasks requests_data max_concurrent ev' =
                  finished_tasks requests_data max_concurrent ev).
  { apply map_eq. intros i. rewrite !finished_tasks_lookup, Hnets.
    destruct (decide (max_concurrent <> 0 /\ i ∈ completion ev)) as [[Hm Hin]|Hn].
    - rewrite decide_True; [done|]. split; [done|]. by rewrite Hperm.
    - rewrite decide_False; [done|]. intros [Hm Hin]. apply Hn.
      split; [done|]. by rewrite <- Hperm. }
  by rewrite Hdone.
Qed.

Lemma process_batch_and_save_order_independent_witness :
  nets {| nets := fun _ => transport_down; completion := [0; 1] |} = nets example_loop /\
  process_batch_and_save "batch_1" [example_request; example_request] 5
    {| nets := fun _ => transport_down; completion := [0; 1] |} ∅ =
  process_batch_and_save "batch_1" [example_request; example_request] 5
    example_loop ∅.
Proof.
  split; [reflexivity|].
  apply (process_batch_and_save_order_independent "batch_1"
           [example_request; example_request] 5
           {| nets := fun _ => transport_down; completion := [0; 1] |} example_loop ∅).
  - reflexivity.
  - apply Permutation_swap.
Defined.

(** X11: [process_batch_and_save] writes the record of its own batch and
    no other, and that record is never half filled: it is "processing" with
    no result, or "completed" with one item for every request. *)
Theorem process_batch_and_save_store (batch_id : string)
    (requests_data : list api_request) (max_concurrent : nat) (ev : event_loop)
    (store : gmap string batch_record) :
  let store' :=
    process_batch_and_save batch_id requests_data max_concurrent ev store in
  (forall other, other <> batch_id -> store' !! other = store !! other) /\
  (store' !! batch_id = Some {| status := Processing; results := [] |} \/
   exists items,
     store' !! batch_id = Some {| status := Completed; results := items |} /\
     length items = length requests_data).
Proof.
  cbn zeta. unfold process_batch_and_save.
  destruct (await_all (enumerate requests_data)
              (finished_tasks requests_data max_concurrent ev)) as [items|] eqn:Hitems.
  - split.
    + intros other Hne. by rewrite !lookup_insert_ne.
    + right. exists items. split; [by rewrite lookup_insert_eq|].
      apply await_all_index in Hitems. rewrite enumerate_fst in Hitems.
      rewrite <- (length_fmap item_index), Hitems. apply length_seq.
  - split.
    + intros other Hne. by rewrite lookup_insert_ne.
    + left. by rewrite lookup_insert_eq.
Qed.

Lemma process_batch_and_save_store_witness :
  "batch_7" <> "batch_1" /\
  process_batch_and_save "batch_1" [example_request; example_request] 5
    example_loop ∅ !! "batch_7" = (∅ : gmap string batch_record) !! "batch_7".
Proof.
  assert (Hne : "batch_7" <> "batch_1") by discriminate.
  split; [exact Hne|].
  apply (proj1 (process_batch_and_save_store "batch_1"
                  [example_request; example_request] 5 example_loop ∅)).
  exact Hne.
Defined.

(** ** Identifiers of batches submitted one at a time *)

Lemma batch_id_inj : Inj (=) (=) (fun k : nat => "batch_" +:+ pretty k).
Proof.
  intros x y H. apply (inj (String.app "batch_")) in H. by apply (inj pretty) in H.
Qed.

Lemma batch_ids_S n :
  batch_ids (S n) = (batch_ids n ++ ["batch_" +:+ pretty (S n)])%list.
Proof. unfold batch_ids. by rewrite seq_S, fmap_app. Qed.

Lemma batch_ids_fresh n : "batch_" +:+ pretty (S n) ∉ batch_ids n.
Proof.
  unfold batch_ids. intros Hin. apply list_elem_of_fmap in Hin as (k & Heq & Hk).
  apply batch_id_inj in Heq. subst k. apply elem_of_seq in Hk. lia.
Qed.

Lemma process_batch_and_save_dom batch_id requests_data max_concurrent ev
    (store : gmap string batch_record) :
  dom (process_batch_and_save batch_id requests_data max_concurrent ev store) =
  {[batch_id]} ∪ dom store.
Proof.
  unfold process_batch_and_save.
  destruct (await_all _ _); rewrite !dom_insert_L; set_solver.
Qed.

Lemma submit_and_start_numbered requests max_concurrent ev s :
  numbered s ->
  (submit_and_start requests max_concurrent ev s).1 =
    "batch_" +:+ pretty (S (size (task_results s))) /\
  numbered (submit_and_start requests max_concurrent ev s).2 /\
  size (task_results (submit_and_start requests max_concurrent ev s).2) =
    S (size (task_results s)).
Proof.
  intros [Hbg Hdom]. unfold submit_and_start, process_batch, run_background.
  cbn [background task_results]. rewrite Hbg. cbn [app fst snd background task_results].
  replace (size (task_results s) + 1) with (S (size (task_results s))) by lia.
  set (id := "batch_" +:+ pretty (S (size (task_results s)))).
  assert (Hfresh : id ∉ dom (task_results s)).
  { rewrite Hdom, elem_of_list_to_set. apply batch_ids_fresh. }
  assert (Hsize : size (process_batch_and_save id requests max_concurrent ev
                          (task_results s)) = S (size (task_results s))).
  { rewrite <- !size_dom, process_batch_and_save_dom.
    rewrite size_union by set_solver. by rewrite size_singleton. }
  split; [reflexivity|]. split; [|exact Hsize].
  split; [reflexivity|]. cbn [task_results].
  rewrite Hsize, process_batch_and_save_dom, batch_ids_S, list_to_set_app_L, Hdom.
  set_solver.
Qed.

Lemma serve_numbered batches : forall s,
  numbered s ->
  (serve batches s).1 =
    (fun k => "batch_" +:+ pretty k) <$> seq (S (size (task_results s))) (length batches) /\
  numbered (serve batches s).2 /\
  size (task_results (serve batches s).2) = size (task_results s) + length batches.
Proof.
  induction batches as [|[[requests max_concurrent] ev] batches IH]; intros s Hs.
  - simpl. repeat split; [apply Hs | apply Hs | lia].
  - cbn [serve].
    destruct (submit_and_start_numbered requests max_concurrent ev s Hs)
      as (Hid & Hnum & Hsize).
    destruct (submit_and_start requests max_concurrent ev s) as [batch_id s'].
    cbn [fst snd] in *.
    destruct (IH s' Hnum) as (Hids & Hnum' & Hsize').
    destruct (serve batches s') as [ids s'']. cbn [fst snd] in *.
    split; [|split; [exact Hnum'|]].
    + cbn [length seq]. rewrite fmap_cons, Hid, Hids, Hsize. reflexivity.
    + rewrite Hsize', Hsize. simpl. lia.
Qed.

(** X12: when every batch is submitted after the background task of the
    one before it has started, batch number [k] of a fresh server gets the
    identifier "batch_k": the identifiers are pairwise distinct, and a read
    of any of them finds a record. *)
Theorem serve_identifiers (batches : list (list api_request * nat * event_loop)) :
  let res := serve batches new_server in
  res.1 = (fun k => "batch_" +:+ pretty k) <$> seq 1 (length batches) /\
  NoDup res.1 /\
  (forall batch_id, batch_id ∈ res.1 -> is_Some (get_batch_result batch_id res.2)).
Proof.
  cbn zeta.
  assert (Hnew : numbered new_server).
  { split; [reflexivity|]. simpl. rewrite dom_empty_L, map_size_empty. reflexivity. }
  destruct (serve_numbered batches new_server Hnew) as (Hids & [_ Hdom] & Hsize).
  simpl in Hids, Hsize. rewrite map_size_empty in Hids, Hsize. simpl in Hsize.
  split; [exact Hids|]. split.
  - rewrite Hids. apply (NoDup_fmap_2 _). apply NoDup_seq.
  - intros batch_id Hin. unfold get_batch_result. apply elem_of_dom.
    rewrite Hdom, Hsize, elem_of_list_to_set. unfold batch_ids. by rewrite <- Hids.
Qed.

Lemma serve_identifiers_witness :
  (serve [([example_request], 5, example_loop); ([example_request], 5, example_loop)]
     new_server).1 = ["batch_1"; "batch_2"] /\
  is_Some (get_batch_result "batch_2"
             (serve [([example_request], 5, example_loop);
                     ([example_request], 5, example_loop)] new_server).2).
Proof.
  split; [reflexivity|].
  apply (proj2 (proj2 (serve_identifiers
                         [([example_request], 5, example_loop);
                          ([example_request], 5, example_loop)]))).
  apply list_elem_of_In. right. left. reflexivity.
Defined.

(** ** More on the semaphore *)

(** X14: a client made with [max_concurrent_requests = 0] never lets a
    call through: in every state it reaches all calls are still waiting. *)
Theorem zero_semaphore_blocks (c : AsyncApiClient) :
  rtc client_step (new_client 0) c ->
  semaphore c = 0 /\ Forall (fun p => p = Waiting) (calls c).
Proof.
  revert c.
  apply (rtc_ind_r (fun c => semaphore c = 0 /\ Forall (fun p => p = Waiting) (calls c))).
  - split; [reflexivity | constructor].
  - intros c c' _ Hstep [Hsem Hall].
    destruct Hstep as [c0 | c0 j v Hj Hv | c0 j o Hj]; simpl.
    + split; [exact Hsem|]. apply Forall_app. split; [exact Hall|].
      by repeat constructor.
    + congruence.
    + exfalso. pose proof (proj1 (Forall_lookup _ _) Hall j _ Hj). discriminate.
Qed.

Lemma zero_semaphore_blocks_witness :
  rtc client_step (new_client 0) {| semaphore := 0; calls := [Waiting] |} /\
  semaphore {| semaphore := 0; calls := [Waiting] |} = 0.
Proof.
  assert (Hreach : rtc client_step (new_client 0)
                     {| semaphore := 0; calls := [Waiting] |}).
  { eapply rtc_l; [apply step_invoke|]. apply rtc_refl. }
  split; [exact Hreach|].
  apply (zero_semaphore_blocks _ Hreach).
Defined.

(** ** Batches submitted in a burst *)

Lemma submit_all_cons requests max_concurrent batches s :
  submit_all ((requests, max_concurrent) :: batches) s =
  ((process_batch requests max_concurrent s).1 ::
     (submit_all batches (process_batch requests max_concurrent s).2).1,
   (submit_all batches (process_batch requests max_concurrent s).2).2).
Proof.
  cbn [submit_all]. destruct (process_batch requests max_concurrent s) as [id s'].
  cbn [fst snd]. by destruct (submit_all batches s').
Qed.

Lemma submit_all_ids batches : forall s,
  (submit_all batches s).1 =
    replicate (length batches) ("batch_" +:+ pretty (size (task_results s) + 1)) /\
  task_results (submit_all batches s).2 = task_results s /\
  background (submit_all batches s).2 =
    (background s ++
     ((fun b : list api_request * nat =>
         ("batch_" +:+ pretty (size (task_results s) + 1), b.1, b.2)) <$> batches))%list.
Proof.
  induction batches as [|[requests max_concurrent] batches IH]; intros s.
  - simpl. by rewrite app_nil_r.
  - rewrite submit_all_cons. cbn [fst snd].
    destruct (IH (process_batch requests max_concurrent s).2) as (Hids & Hstore & Hbg).
    unfold process_batch in *. cbn [fst snd task_results background] in *.
    split; [by rewrite Hids|]. split; [exact Hstore|].
    rewrite Hbg, <- app_assoc. reflexivity.
Qed.

(** X15: all the batches submitted before a background task has started
    get one and the same identifier, computed from the number of records
    in the store; the submissions leave the store as it is and queue one
    background task each, all under that identifier. *)
Theorem burst_shares_identifier (batches : list (list api_request * nat)) (s : server) :
  let batch_id := "batch_" +:+ pretty (size (task_results s) + 1) in
  let res := submit_all batches s in
  (forall id, id ∈ res.1 -> id = batch_id) /\
  length res.1 = length batches /\
  task_results res.2 = task_results s /\
  background res.2 =
    (background s ++
     ((fun b : list api_request * nat => (batch_id, b.1, b.2)) <$> batches))%list.
Proof.
  cbn zeta. destruct (submit_all_ids batches s) as (Hids & Hstore & Hbg).
  rewrite Hids. split; [|split; [|split]].
  - intros id Hin. by apply elem_of_replicate in Hin as [-> _].
  - apply length_replicate.
  - exact Hstore.
  - exact Hbg.
Qed.

Lemma burst_shares_identifier_witness :
  "batch_1" ∈ (submit_all [([example_request], 5); ([example_request], 3)] new_server).1 /\
  "batch_1" = "batch_" +:+ pretty (size (task_results new_server) + 1).
Proof.
  assert (Hin : "batch_1" ∈
            (submit_all [([example_request], 5); ([example_request], 3)] new_server).1)
    by (apply list_elem_of_In; left; reflexivity).
  split; [exact Hin|].
  apply (proj1 (burst_shares_identifier
                  [([example_request], 5); ([example_request], 3)] new_server)).
  exact Hin.
Defined.
